(** * Website content analyzer: extraction pipeline and its properties

    A shallow embedding of [website_analyzer.py] (free functions) and
    [website_analyzer2.py] (the [WebsiteAnalyzer] class).  Both files
    delegate HTML parsing to BeautifulSoup and URL handling to
    [urllib.parse]; the parts of those collaborators that the extractors
    call are modelled in the modules [PyStr], [Urllib] and [Soup] below.
    The report and the command line of both files follow, with what
    they print as a list of events and the standard input as the list
    of the lines typed.

    Conventions.
    - A Python [str] is a [string]; its characters stand for the code
      points U+0000..U+00FF.
    - A call that may raise [ValueError] returns a [res]; everything
      else is a total function.
    - [urllib.parse] follows CPython 3.11.
    - The network is a parameter: a function from the URL to the page
      fetched, if any; log messages (standard error) are not modelled. *)

From Stdlib Require Import Ascii String List Bool Arith Lia DecimalString.
From Stdlib Require Import ZArith Sorted Permutation.
From stdpp Require Import base option list strings gmap.

Local Open Scope string_scope.
Local Open Scope nat_scope.
Local Open Scope list_scope.

(** ** Exceptions *)

Inductive exn : Type := ValueError.

Inductive res (A : Type) : Type :=
| Ok (a : A)
| Raise (e : exn).

Arguments Ok {A} a.
Arguments Raise {A} e.

Definition res_bind {A B : Type} (m : res A) (k : A -> res B) : res B :=
  match m with
  | Ok a => k a
  | Raise e => Raise e
  end.

Notation "'do' x <- m ; k" := (res_bind m (fun x => k))
  (at level 10, x pattern, m at level 100, k at level 200).

(** [for x in l: ...] over a body that may raise, collecting the results. *)
Fixpoint res_map {A B : Type} (f : A -> res B) (l : list A) : res (list B) :=
  match l with
  | [] => Ok []
  | x :: l' => do y <- f x; do ys <- res_map f l'; Ok (y :: ys)
  end.

(** ** Python string operations *)

Module PyStr.

Definition code (c : ascii) : nat := nat_of_ascii c.

(** [str.isspace] on one character. *)
Definition is_space (c : ascii) : bool :=
  let n := code c in
  ((9 <=? n) && (n <=? 13)) || ((28 <=? n) && (n <=? 32))
  || (n =? 133) || (n =? 160).

Definition is_ascii_alpha (c : ascii) : bool :=
  let n := code c in
  ((65 <=? n) && (n <=? 90)) || ((97 <=? n) && (n <=? 122)).

Definition is_digit (c : ascii) : bool :=
  let n := code c in (48 <=? n) && (n <=? 57).

Definition is_hex_digit (c : ascii) : bool :=
  let n := code c in
  is_digit c || ((65 <=? n) && (n <=? 70)) || ((97 <=? n) && (n <=? 102)).

Definition lower_char (c : ascii) : ascii :=
  let n := code c in
  if (65 <=? n) && (n <=? 90) then ascii_of_nat (n + 32) else c.

Definition chars (s : string) : list ascii := list_ascii_of_string s.

Definition nonempty (s : string) : bool :=
  match s with EmptyString => false | String _ _ => true end.

Definition all_chars (p : ascii -> bool) (s : string) : bool :=
  forallb p (chars s).

Fixpoint lower (s : string) : string :=
  match s with
  | EmptyString => EmptyString
  | String c s' => String (lower_char c) (lower s')
  end.

Fixpoint lstrip (p : ascii -> bool) (s : string) : string :=
  match s with
  | EmptyString => EmptyString
  | String c s' => if p c then lstrip p s' else s
  end.

Fixpoint rstrip (p : ascii -> bool) (s : string) : string :=
  match s with
  | EmptyString => EmptyString
  | String c s' =>
      match rstrip p s' with
      | EmptyString => if p c then EmptyString else String c EmptyString
      | r => String c r
      end
  end.

(** [s.strip(chars)] with the character set given as a predicate. *)
Definition strip_by (p : ascii -> bool) (s : string) : string :=
  rstrip p (lstrip p s).

(** [s.strip()]. *)
Definition strip (s : string) : string := strip_by is_space s.

(** [c in s]. *)
Fixpoint contains (c : ascii) (s : string) : bool :=
  match s with
  | EmptyString => false
  | String a s' => Ascii.eqb a c || contains c s'
  end.

(** [s.replace(c, "")]. *)
Fixpoint remove (c : ascii) (s : string) : string :=
  match s with
  | EmptyString => EmptyString
  | String a s' => if Ascii.eqb a c then remove c s' else String a (remove c s')
  end.

(** [s.partition(c)]: the text before and after the first [c], [None]
    when [c] does not occur (Python then returns [(s, '', '')]). *)
Fixpoint partition (c : ascii) (s : string) : option (string * string) :=
  match s with
  | EmptyString => None
  | String a s' =>
      if Ascii.eqb a c then Some (EmptyString, s')
      else match partition c s' with
           | Some (h, t) => Some (String a h, t)
           | None => None
           end
  end.

(** [s.rpartition(c)]: the text before and after the last [c]. *)
Fixpoint rpartition (c : ascii) (s : string) : option (string * string) :=
  match s with
  | EmptyString => None
  | String a s' =>
      match rpartition c s' with
      | Some (h, t) => Some (String a h, t)
      | None => if Ascii.eqb a c then Some (EmptyString, s') else None
      end
  end.

(** The pieces of [s] between the characters that satisfy [p]; never
    the empty list. *)
Fixpoint split_by (p : ascii -> bool) (s : string) : list string :=
  match s with
  | EmptyString => [EmptyString]
  | String a s' =>
      if p a then EmptyString :: split_by p s'
      else match split_by p s' with
           | h :: t => String a h :: t
           | [] => [String a EmptyString]
           end
  end.

(** [s.split(c)]. *)
Definition split (c : ascii) (s : string) : list string :=
  split_by (Ascii.eqb c) s.

(** [s.split()]: the maximal runs of non-whitespace characters. *)
Definition split_ws (s : string) : list string :=
  List.filter nonempty (split_by is_space s).

(** [sep.join(l)]. *)
Fixpoint join (sep : string) (l : list string) : string :=
  match l with
  | [] => EmptyString
  | [x] => x
  | x :: l' => x +:+ sep +:+ join sep l'
  end.

(** [s.startswith(p)]. *)
Definition startswith (p s : string) : bool := String.prefix p s.

(** [s.endswith(p)]. *)
Definition endswith (p s : string) : bool :=
  let n := String.length s in
  let k := String.length p in
  (k <=? n) && String.eqb (String.substring (n - k) k s) p.

(** The longest prefix of [s] without a character satisfying [p], and
    the rest of [s]. *)
Fixpoint span_until (p : ascii -> bool) (s : string) : string * string :=
  match s with
  | EmptyString => (EmptyString, EmptyString)
  | String a s' =>
      if p a then (EmptyString, s)
      else let '(h, t) := span_until p s' in (String a h, t)
  end.

(** [int(s, 10)] for a string of decimal digits. *)
Definition decimal (s : string) : nat :=
  fold_left (fun acc c => 10 * acc + (code c - 48)) (chars s) 0.

(** [x in l] for a list of strings. *)
Definition in_list (x : string) (l : list string) : bool :=
  existsb (String.eqb x) l.

End PyStr.

(** ** [ipaddress]: which strings [ip_address] accepts

    [urllib.parse] only asks whether a bracketed host parses and, if so,
    as which family; the integer value of the address is not kept. *)

Module Ipaddress.
Import PyStr.

(** [_BaseV4._parse_octet] succeeds. *)
Definition parse_octet_ok (s : string) : bool :=
  if negb (nonempty s) then false
  else if negb (all_chars is_digit s) then false
  else if 3 <? String.length s then false
  else if negb (String.eqb s "0") && startswith "0" s then false
  else decimal s <=? 255.

(** [IPv4Address(s)] succeeds. *)
Definition ipv4_ok (s : string) : bool :=
  if contains "/" s then false
  else if negb (nonempty s) then false
  else
    let octets := split "." s in
    if negb (length octets =? 4) then false
    else forallb parse_octet_ok octets.

(** [_BaseV6._parse_hextet] succeeds ([int('', 16)] raises). *)
Definition parse_hextet_ok (s : string) : bool :=
  all_chars is_hex_digit s && (String.length s <=? 4) && nonempty s.

(** The indices [i] with [1 <= i < len(parts) - 1] and [parts[i]] empty. *)
Definition inner_empty_indices (parts : list string) : list nat :=
  List.filter
    (fun i => (1 <=? i) && (S i <? length parts)
              && negb (nonempty (nth i parts "")))
    (seq 0 (length parts)).

(** [_BaseV6._ip_int_from_string] succeeds. *)
Definition ipv6_int_ok (ip_str : string) : bool :=
  nonempty ip_str &&
  let parts := split ":" ip_str in
  (3 <=? length parts) &&
  let suffix := List.last parts "" in
  let parts' :=
    if contains "." suffix
    then if ipv4_ok suffix
         then Some (List.removelast parts ++ ["0"; "0"])
         else None
    else Some parts in
  match parts' with
  | None => false
  | Some parts =>
      let n := length parts in
      let first_empty := negb (nonempty (nth 0 parts "")) in
      let last_empty := negb (nonempty (List.last parts "")) in
      (n <=? 9) &&
      match inner_empty_indices parts with
      | [] =>
          (n =? 8) && negb first_empty && negb last_empty
          && forallb parse_hextet_ok parts
      | [skip_index] =>
          let hi0 := skip_index in
          let lo0 := n - skip_index - 1 in
          let hi := if first_empty then hi0 - 1 else hi0 in
          let lo := if last_empty then lo0 - 1 else lo0 in
          (if first_empty then hi =? 0 else true)
          && (if last_empty then lo =? 0 else true)
          && (hi + lo <? 8)
          && forallb parse_hextet_ok (firstn hi parts)
          && forallb parse_hextet_ok (skipn (n - lo) parts)
      | _ => false
      end
  end.

(** [IPv6Address(s)] succeeds. *)
Definition ipv6_ok (s : string) : bool :=
  negb (contains "/" s) &&
  match partition "%" s with
  | None => ipv6_int_ok s
  | Some (addr, scope_id) =>
      nonempty scope_id && negb (contains "%" scope_id) && ipv6_int_ok addr
  end.

End Ipaddress.

(** ** [urllib.parse] *)

Module Urllib.
Import PyStr.

Definition uses_relative : list string :=
  [""; "ftp"; "http"; "gopher"; "nntp"; "imap"; "wais"; "file"; "https";
   "shttp"; "mms"; "prospero"; "rtsp"; "rtspu"; "sftp"; "svn"; "svn+ssh";
   "ws"; "wss"].

Definition uses_netloc : list string :=
  [""; "ftp"; "http"; "gopher"; "nntp"; "telnet"; "imap"; "wais"; "file";
   "mms"; "https"; "shttp"; "snews"; "prospero"; "rtsp"; "rtspu"; "rsync";
   "svn"; "svn+ssh"; "sftp"; "nfs"; "git"; "git+ssh"; "ws"; "wss"].

Definition uses_params : list string :=
  [""; "ftp"; "hdl"; "prospero"; "http"; "imap"; "https"; "shttp"; "rtsp";
   "rtspu"; "sip"; "sips"; "mms"; "sftp"; "tel"].

(** [c in scheme_chars]. *)
Definition is_scheme_char (c : ascii) : bool :=
  is_ascii_alpha c || is_digit c
  || Ascii.eqb c "+" || Ascii.eqb c "-" || Ascii.eqb c ".".

(** [c in _WHATWG_C0_CONTROL_OR_SPACE]. *)
Definition is_c0_control_or_space (c : ascii) : bool := code c <=? 32.

(** Removal of [_UNSAFE_URL_BYTES_TO_REMOVE]: tab, CR and LF. *)
Definition remove_unsafe (s : string) : string :=
  remove (ascii_of_nat 10) (remove (ascii_of_nat 13) (remove (ascii_of_nat 9) s)).

Record ParseResult : Type := mkParseResult {
  scheme : string;
  netloc : string;
  path : string;
  params : string;
  query : string;
  fragment : string
}.

(** [_check_bracketed_host] returns without raising. *)
Definition check_bracketed_host (hostname : string) : bool :=
  if startswith "v" hostname then
    (* re.match(r"\Av[a-fA-F0-9]+\..+\Z", hostname) *)
    match hostname with
    | String _ rest =>
        let '(digits, tail) := span_until (fun c => negb (is_hex_digit c)) rest in
        nonempty digits &&
        match tail with
        | String "." more => nonempty more
        | _ => false
        end
    | EmptyString => false
    end
  else
    (* ipaddress.ip_address tries IPv4 first; an IPv4 result is refused *)
    negb (Ipaddress.ipv4_ok hostname) && Ipaddress.ipv6_ok hostname.

(** [_check_bracketed_netloc] returns without raising. *)
Definition check_bracketed_netloc (netloc : string) : bool :=
  let hostname_and_port :=
    match rpartition "@" netloc with
    | Some (_, after) => after
    | None => netloc
    end in
  match partition "[" hostname_and_port with
  | Some (before_bracket, bracketed) =>
      let '(hostname, port) :=
        match partition "]" bracketed with
        | Some (h, p) => (h, p)
        | None => (bracketed, "")
        end in
      negb (nonempty before_bracket)
      && negb (nonempty port && negb (startswith ":" port))
      && check_bracketed_host hostname
  | None =>
      let hostname :=
        match partition ":" hostname_and_port with
        | Some (h, _) => h
        | None => hostname_and_port
        end in
      check_bracketed_host hostname
  end.

(** [_splitnetloc(url, 2)] applied to a [url] that starts with [//]. *)
Definition splitnetloc (url : string) : string * string :=
  span_until
    (fun c => Ascii.eqb c "/" || Ascii.eqb c "?" || Ascii.eqb c "#")
    (String.substring 2 (String.length url - 2) url).

(** [urlsplit(url, scheme)]: scheme, netloc, path, query, fragment.
    [_checknetloc] raises only for a netloc whose NFKC normal form
    gains one of [/?#@:]; no code point up to U+00FF does that, so the
    check is a no-op here. *)
Definition urlsplit (url scheme : string)
  : res (string * string * string * string * string) :=
  let url := lstrip is_c0_control_or_space url in
  let scheme := strip_by is_c0_control_or_space scheme in
  let url := remove_unsafe url in
  let scheme := remove_unsafe scheme in
  let '(scheme, url) :=
    match partition ":" url with
    | Some (String c0 pre' as pre, rest) =>
        if is_ascii_alpha c0 && all_chars is_scheme_char pre
        then (lower pre, rest)
        else (scheme, url)
    | _ => (scheme, url)
    end in
  do (netloc, url) <-
    (if startswith "//" url then
       let '(netloc, rest) := splitnetloc url in
       let has_open := contains "[" netloc in
       let has_close := contains "]" netloc in
       if (has_open && negb has_close) || (has_close && negb has_open)
       then Raise ValueError
       else if has_open && has_close && negb (check_bracketed_netloc netloc)
       then Raise ValueError
       else Ok (netloc, rest)
     else Ok ("", url));
  let '(url, fragment) :=
    match partition "#" url with
    | Some (u, f) => (u, f)
    | None => (url, "")
    end in
  let '(url, query) :=
    match partition "?" url with
    | Some (u, q) => (u, q)
    | None => (url, "")
    end in
  Ok (scheme, netloc, url, query, fragment).

(** [_splitparams(url)] for a [url] that contains [;]. *)
Definition splitparams (url : string) : string * string :=
  match rpartition "/" url with
  | Some (head, tail) =>
      match partition ";" tail with
      | Some (t, p) => (head +:+ "/" +:+ t, p)
      | None => (url, "")
      end
  | None =>
      match partition ";" url with
      | Some (u, p) => (u, p)
      | None => (url, "")
      end
  end.

(** [urlparse(url, scheme)]. *)
Definition urlparse (url scheme : string) : res ParseResult :=
  do (scheme, netloc, url, query, fragment) <- urlsplit url scheme;
  let '(url, params) :=
    if in_list scheme uses_params && contains ";" url
    then splitparams url
    else (url, "") in
  Ok (mkParseResult scheme netloc url params query fragment).

(** [urlunsplit((scheme, netloc, url, query, fragment))]. *)
Definition urlunsplit (scheme netloc url query fragment : string) : string :=
  let url :=
    if nonempty netloc
       || (nonempty scheme && in_list scheme uses_netloc
           && negb (startswith "//" url))
    then
      let url :=
        if nonempty url && negb (startswith "/" url) then "/" +:+ url else url in
      "//" +:+ netloc +:+ url
    else url in
  let url := if nonempty scheme then scheme +:+ ":" +:+ url else url in
  let url := if nonempty query then url +:+ "?" +:+ query else url in
  let url := if nonempty fragment then url +:+ "#" +:+ fragment else url in
  url.

(** [urlunparse(components)]. *)
Definition urlunparse (p : ParseResult) : string :=
  let url :=
    if nonempty (params p) then path p +:+ ";" +:+ params p else path p in
  urlunsplit (scheme p) (netloc p) url (query p) (fragment p).

(** [segments[1:-1] = filter(None, segments[1:-1])]. *)
Definition filter_inner (segments : list string) : list string :=
  match segments with
  | [] => []
  | [x] => [x]
  | x :: rest =>
      x :: List.filter nonempty (List.removelast rest) ++ [List.last rest ""]
  end.

(** One turn of the loop over [segments] that builds [resolved_path]. *)
Definition resolve_step (resolved_path : list string) (seg : string)
  : list string :=
  if String.eqb seg ".." then List.removelast resolved_path
  else if String.eqb seg "." then resolved_path
  else resolved_path ++ [seg].

(** [urljoin(base, url)]. *)
Definition urljoin (base url : string) : res string :=
  if negb (nonempty base) then Ok url
  else if negb (nonempty url) then Ok base
  else
    do b <- urlparse base "";
    do u <- urlparse url (scheme b);
    if negb (String.eqb (scheme u) (scheme b))
       || negb (in_list (scheme u) uses_relative)
    then Ok url
    else if in_list (scheme u) uses_netloc && nonempty (netloc u)
    then Ok (urlunparse u)
    else
      let netloc' :=
        if in_list (scheme u) uses_netloc then netloc b else netloc u in
      if negb (nonempty (path u)) && negb (nonempty (params u)) then
        let query' := if nonempty (query u) then query u else query b in
        Ok (urlunparse
              (mkParseResult (scheme u) netloc' (path b) (params b) query'
                 (fragment u)))
      else
        let base_parts := split "/" (path b) in
        let base_parts :=
          if nonempty (List.last base_parts "")
          then List.removelast base_parts else base_parts in
        let segments :=
          if startswith "/" (path u) then split "/" (path u)
          else filter_inner (base_parts ++ split "/" (path u)) in
        let resolved_path := fold_left resolve_step segments [] in
        let last_seg := List.last segments "" in
        let resolved_path :=
          if String.eqb last_seg "." || String.eqb last_seg ".."
          then resolved_path ++ [""] else resolved_path in
        let joined := join "/" resolved_path in
        Ok (urlunparse
              (mkParseResult (scheme u) netloc'
                 (if nonempty joined then joined else "/")
                 (params u) (query u) (fragment u))).

End Urllib.

(** ** BeautifulSoup: the parsed document

    A document is the list of top-level nodes of the parse tree.  A
    [Text] node is a string that [get_text] reports; [Comment] stands
    for the strings it skips (comments, declarations).  Attribute values
    are strings: the parser stores a value-less attribute as [""]. *)

Module Soup.
Import PyStr.

#[warnings="-register-all"] Inductive node : Type :=
| Text (s : string)
| Comment (s : string)
| Tag (name : string) (attrs : gmap string string) (contents : list node).

Definition soup : Type := list node.

(** [tag.descendants]: every node below [n], in document order. *)
Fixpoint descendants (n : node) : list node :=
  match n with
  | Tag _ _ cs =>
      (fix over (l : list node) : list node :=
         match l with
         | [] => []
         | c :: l' => c :: descendants c ++ over l'
         end) cs
  | _ => []
  end.

(** The nodes of a document (or of a tag's contents), in document order. *)
Definition nodes (doc : list node) : list node :=
  flat_map (fun c => c :: descendants c) doc.

Definition contents (t : node) : list node :=
  match t with Tag _ _ cs => cs | _ => [] end.

Definition is_tag (name : string) (n : node) : bool :=
  match n with Tag nm _ _ => String.eqb nm name | _ => false end.

(** [tag.get(key)]; [None] is Python's [None]. *)
Definition get (t : node) (key : string) : option string :=
  match t with Tag _ a _ => a !! key | _ => None end.

(** [tag.get(key, default)]. *)
Definition get_default (t : node) (key default : string) : string :=
  match get t key with Some v => v | None => default end.

(** [key=True] in a [find_all] filter: the attribute is present. *)
Definition has_attr (key : string) (t : node) : bool :=
  match get t key with Some _ => true | None => false end.

(** [rel='stylesheet'] in a [find_all] filter: [rel] is a
    whitespace-separated list and one of its values is [value]. *)
Definition has_rel (value : string) (t : node) : bool :=
  match get t "rel" with
  | Some v => in_list value (split_ws v)
  | None => false
  end.

(** [soup.find_all(name)]. *)
Definition find_all (name : string) (doc : list node) : list node :=
  List.filter (is_tag name) (nodes doc).

(** [soup.find_all(name, ...)] with a filter on the attributes. *)
Definition find_all_with (name : string) (p : node -> bool) (doc : list node)
  : list node :=
  List.filter p (find_all name doc).

(** [soup.find(name)]. *)
Definition find (name : string) (doc : list node) : option node :=
  List.head (find_all name doc).

(** The strings [tag._all_strings(strip=True)] yields. *)
Definition stripped_strings (t : node) : list string :=
  List.filter nonempty
    (flat_map (fun n => match n with Text s => [strip s] | _ => [] end)
       (descendants t)).

(** [tag.get_text(separator=sep, strip=True)]. *)
Definition get_text (sep : string) (t : node) : string :=
  join sep (stripped_strings t).

End Soup.

(** Truth value of an optional string ([None] and [""] are false). *)
Definition truthy (o : option string) : bool :=
  match o with Some s => PyStr.nonempty s | None => false end.

(** ** Result records shared by the two implementations *)

Record ImageInfo : Type := mkImageInfo {
  src : option string;
  alt : string;
  width : option string;
  height : option string
}.

Record LinkData : Type := mkLinkData {
  href : string;
  text : string
}.

Record LinksInfo : Type := mkLinksInfo {
  total_links : nat;
  internal_links : list LinkData;
  external_links : list LinkData;
  internal_count : nat;
  external_count : nat
}.

Record ImagesSummary : Type := mkImagesSummary {
  total_images : nat;
  image_details : list ImageInfo
}.

(** The populated [analysis_results]; [images] is [None] while it still
    holds the placeholder [{}]. *)
Record AnalysisData : Type := mkAnalysisData {
  url : string;
  headings : gmap string (list string);
  images : option ImagesSummary;
  links : LinksInfo;
  meta_tags : gmap string (option string);
  word_count : nat;
  paragraph_count : nat;
  stylesheet_count : nat;
  script_count : nat
}.

(** The dictionary [analyze_website] returns: [{"error": ...}] or the
    populated record. *)
Inductive AnalysisResult : Type :=
| Failure (error : string)
| Analysis (data : AnalysisData).

(** The keys of the returned dictionary. *)
Definition result_keys (r : AnalysisResult) : list string :=
  match r with
  | Failure _ => ["error"]
  | Analysis _ =>
      ["url"; "headings"; "images"; "links"; "meta_tags"; "word_count";
       "paragraph_count"; "stylesheet_count"; "script_count"]
  end.

(** [f'h{i}']. *)
Definition heading_tag (i : nat) : string :=
  "h" +:+ NilZero.string_of_uint (Nat.to_uint i).

(** [range(1, 7)]. *)
Definition levels : list nat := seq 1 6.

(** The test [src and not src.startswith(('http://', 'https://', '//'))]. *)
Definition is_relative_src (src : option string) : bool :=
  match src with
  | Some s =>
      PyStr.nonempty s
      && negb (PyStr.startswith "http://" s || PyStr.startswith "https://" s
               || PyStr.startswith "//" s)
  | None => false
  end.

(** The loop over [<meta>] elements, common to both files. *)
Definition meta_step (meta_info : gmap string (option string)) (meta : Soup.node)
  : gmap string (option string) :=
  let name := Soup.get meta "name" in
  let property_tag := Soup.get meta "property" in
  let content := Soup.get meta "content" in
  if truthy name then <[default "" name := content]> meta_info
  else if truthy property_tag then <[default "" property_tag := content]> meta_info
  else meta_info.

(** Accumulators of the loop over links. *)
Record LinkAcc : Type := mkLinkAcc {
  acc_links_info : list LinkData;
  acc_internal_links : list LinkData;
  acc_external_links : list LinkData;
  acc_internal_count : nat;
  acc_external_count : nat
}.

Definition link_acc0 : LinkAcc := mkLinkAcc [] [] [] 0 0.

(** [for x in l: s = body(s, x)], stopping at the first exception. *)
Fixpoint for_loop {A S : Type} (l : list A) (body : S -> A -> res S) (s : S)
  : res S :=
  match l with
  | [] => Ok s
  | x :: l' => do s' <- body s x; for_loop l' body s'
  end.

(** The end of the link loop's body: record the link and classify it. *)
Definition classify (acc : LinkAcc) (link_data : LinkData)
    (parsed_full_href parsed_base : Urllib.ParseResult) : LinkAcc :=
  let links_info := acc_links_info acc ++ [link_data] in
  if String.eqb (Urllib.netloc parsed_full_href) (Urllib.netloc parsed_base)
  then mkLinkAcc links_info (acc_internal_links acc ++ [link_data])
         (acc_external_links acc) (acc_internal_count acc + 1)
         (acc_external_count acc)
  else mkLinkAcc links_info (acc_internal_links acc)
         (acc_external_links acc ++ [link_data]) (acc_internal_count acc)
         (acc_external_count acc + 1).

Definition set_images (a : AnalysisData) (v : ImagesSummary) : AnalysisData :=
  mkAnalysisData (url a) (headings a) (Some v) (links a) (meta_tags a)
    (word_count a) (paragraph_count a) (stylesheet_count a) (script_count a).

Definition set_word_count (a : AnalysisData) (v : nat) : AnalysisData :=
  mkAnalysisData (url a) (headings a) (images a) (links a) (meta_tags a)
    v (paragraph_count a) (stylesheet_count a) (script_count a).

Definition set_paragraph_count (a : AnalysisData) (v : nat) : AnalysisData :=
  mkAnalysisData (url a) (headings a) (images a) (links a) (meta_tags a)
    (word_count a) v (stylesheet_count a) (script_count a).

Definition set_stylesheet_count (a : AnalysisData) (v : nat) : AnalysisData :=
  mkAnalysisData (url a) (headings a) (images a) (links a) (meta_tags a)
    (word_count a) (paragraph_count a) v (script_count a).

Definition set_script_count (a : AnalysisData) (v : nat) : AnalysisData :=
  mkAnalysisData (url a) (headings a) (images a) (links a) (meta_tags a)
    (word_count a) (paragraph_count a) (stylesheet_count a) v.

(** ** [website_analyzer.py]: the free functions *)

Module WA1.
Import PyStr Soup.

Definition extract_headings (soup : soup) : gmap string (list string) :=
  let headings0 : gmap string (list string) :=
    list_to_map (List.map (fun i => (heading_tag i, [])) levels) in
  fold_left
    (fun headings i =>
       let tag := heading_tag i in
       fold_left
         (fun headings heading =>
            let text := get_text "" heading in
            if nonempty text
            then alter (fun texts => texts ++ [text]) tag headings
            else headings)
         (find_all tag soup) headings)
    levels headings0.

(** The body of the loop over [image_tags]. *)
Definition image_info (base_url : string) (img : node) : res ImageInfo :=
  let src := get img "src" in
  let alt := get_default img "alt" "" in
  let width := get img "width" in
  let height := get img "height" in
  do src <-
    (if is_relative_src src then
       if endswith "/" base_url
       then Ok (Some (base_url +:+ default "" src))
       else do joined <- Urllib.urljoin base_url (default "" src); Ok (Some joined)
     else Ok src);
  Ok (mkImageInfo src alt width height).

Definition extract_images_info (soup : soup) (base_url : string)
  : res (list ImageInfo * nat) :=
  let image_tags := find_all "img" soup in
  do images_info <- res_map (image_info base_url) image_tags;
  Ok (images_info, length image_tags).

(** The body of the loop over [link_tags]. *)
Definition link_step (base_url : string) (acc : LinkAcc) (a_tag : node)
  : res LinkAcc :=
  let href := strip (default "" (get a_tag "href")) in
  let text := get_text "" a_tag in
  do full_href <- Urllib.urljoin base_url href;
  do parsed_base <- Urllib.urlparse base_url "";
  do parsed_full_href <- Urllib.urlparse full_href "";
  let link_data := mkLinkData full_href text in
  Ok (classify acc link_data parsed_full_href parsed_base).

Definition extract_links_info (soup : soup) (base_url : string) : res LinksInfo :=
  let link_tags := find_all_with "a" (has_attr "href") soup in
  do acc <- for_loop link_tags (link_step base_url) link_acc0;
  Ok (mkLinksInfo (length link_tags) (acc_internal_links acc)
        (acc_external_links acc) (acc_internal_count acc)
        (acc_external_count acc)).

Definition extract_meta_tags (soup : soup) : gmap string (option string) :=
  let meta_info := fold_left meta_step (find_all "meta" soup) ∅ in
  match find "title" soup with
  | Some title_tag => <["title" := Some (get_text "" title_tag)]> meta_info
  | None => meta_info
  end.

(** [fetch_html] is the network collaborator: [None] when the request
    fails, the parsed page otherwise. *)
Definition analyze_website (fetch_html : string -> option soup) (url : string)
  : res AnalysisResult :=
  match fetch_html url with
  | None => Ok (Failure ("Could not fetch or parse " +:+ url))
  | Some soup =>
      let headings := extract_headings soup in
      do links <- extract_links_info soup url;
      let analysis_results :=
        mkAnalysisData url headings None links (extract_meta_tags soup)
          0 0 0 0 in
      do (images_list, total_images) <- extract_images_info soup url;
      let analysis_results :=
        set_images analysis_results (mkImagesSummary total_images images_list) in
      let analysis_results :=
        match find "body" soup with
        | Some body_text =>
            let text_content := get_text " " body_text in
            let analysis_results :=
              set_word_count analysis_results (length (split_ws text_content)) in
            set_paragraph_count analysis_results
              (length (find_all "p" (contents body_text)))
        | None => analysis_results
        end in
      let analysis_results :=
        set_stylesheet_count analysis_results
          (length (find_all_with "link" (has_rel "stylesheet") soup)) in
      let analysis_results :=
        set_script_count analysis_results
          (length (find_all_with "script" (has_attr "src") soup)) in
      Ok (Analysis analysis_results)
  end.

End WA1.

(** ** [website_analyzer2.py]: the [WebsiteAnalyzer] class *)

Module WA2.
Import PyStr Soup.

Definition extract_headings (soup : soup) : gmap string (list string) :=
  list_to_map
    (List.map
       (fun i =>
          (heading_tag i,
           List.map (get_text "")
             (List.filter (fun heading => nonempty (get_text "" heading))
                (find_all (heading_tag i) soup))))
       levels).

(** The body of the loop over [image_tags]. *)
Definition image_info (base_url : string) (img : node) : res ImageInfo :=
  let src := get img "src" in
  let alt := get_default img "alt" "" in
  let width := get img "width" in
  let height := get img "height" in
  do src <-
    (if is_relative_src src
     then do joined <- Urllib.urljoin base_url (default "" src); Ok (Some joined)
     else Ok src);
  Ok (mkImageInfo src alt width height).

Definition extract_images_info (soup : soup) (base_url : string)
  : res (list ImageInfo * nat) :=
  let image_tags := find_all "img" soup in
  do images_info <- res_map (image_info base_url) image_tags;
  Ok (images_info, length image_tags).

(** The body of the loop over [link_tags]. *)
Definition link_step (base_url : string) (parsed_base : Urllib.ParseResult)
    (acc : LinkAcc) (a_tag : node) : res LinkAcc :=
  let href := strip (default "" (get a_tag "href")) in
  let text := get_text "" a_tag in
  do full_href <- Urllib.urljoin base_url href;
  do parsed_full_href <- Urllib.urlparse full_href "";
  let link_data := mkLinkData full_href text in
  Ok (classify acc link_data parsed_full_href parsed_base).

Definition extract_links_info (soup : soup) (base_url : string) : res LinksInfo :=
  let link_tags := find_all_with "a" (has_attr "href") soup in
  do parsed_base <- Urllib.urlparse base_url "";
  do acc <- for_loop link_tags (link_step base_url parsed_base) link_acc0;
  Ok (mkLinksInfo (length link_tags) (acc_internal_links acc)
        (acc_external_links acc) (acc_internal_count acc)
        (acc_external_count acc)).

Definition extract_meta_tags (soup : soup) : gmap string (option string) :=
  let meta_info := fold_left meta_step (find_all "meta" soup) ∅ in
  match find "title" soup with
  | Some title_tag => <["title" := Some (get_text "" title_tag)]> meta_info
  | None => meta_info
  end.

Definition analyze_website (fetch_html : string -> option soup) (url : string)
  : res AnalysisResult :=
  match fetch_html url with
  | None => Ok (Failure ("Could not fetch or parse " +:+ url))
  | Some soup =>
      let headings := extract_headings soup in
      do links <- extract_links_info soup url;
      let analysis_results :=
        mkAnalysisData url headings None links (extract_meta_tags soup)
          0 0 0 0 in
      do (images_list, total_images) <- extract_images_info soup url;
      let analysis_results :=
        set_images analysis_results (mkImagesSummary total_images images_list) in
      let analysis_results :=
        match find "body" soup with
        | Some body_tag =>
            let text_content := get_text " " body_tag in
            let analysis_results :=
              set_word_count analysis_results (length (split_ws text_content)) in
            set_paragraph_count analysis_results
              (length (find_all "p" (contents body_tag)))
        | None => analysis_results
        end in
      let analysis_results :=
        set_stylesheet_count analysis_results
          (length (find_all_with "link" (has_rel "stylesheet") soup)) in
      let analysis_results :=
        set_script_count analysis_results
          (length (find_all_with "script" (has_attr "src") soup)) in
      Ok (Analysis analysis_results)
  end.

Definition valid_url (url : string) : bool :=
  startswith "http://" url || startswith "https://" url.

End WA2.

(** * The report and the command line *)

(** ** More string operations *)

Module PyText.
Import PyStr.

(** [c.lower()] for one character; every code point up to U+00FF has
    its lower-case form in the same range. *)
Definition lower_char (c : ascii) : ascii :=
  let n := code c in
  if ((65 <=? n) && (n <=? 90))
     || ((192 <=? n) && (n <=? 222) && negb (n =? 215))
  then ascii_of_nat (n + 32) else c.

(** [c.upper()] for one character.  The upper-case forms of U+00B5,
    U+00DF and U+00FF are not single code points up to U+00FF; these
    three characters are left as they are. *)
Definition upper_char (c : ascii) : ascii :=
  let n := code c in
  if ((97 <=? n) && (n <=? 122))
     || ((224 <=? n) && (n <=? 254) && negb (n =? 247))
  then ascii_of_nat (n - 32) else c.

(** [s.lower()]. *)
Fixpoint lower (s : string) : string :=
  match s with
  | EmptyString => EmptyString
  | String c s' => String (lower_char c) (lower s')
  end.

(** [s.upper()]. *)
Fixpoint upper (s : string) : string :=
  match s with
  | EmptyString => EmptyString
  | String c s' => String (upper_char c) (upper s')
  end.

(** [s[:n]]. *)
Fixpoint slice_to (n : nat) (s : string) : string :=
  match n, s with
  | S n', String c s' => String c (slice_to n' s')
  | _, _ => EmptyString
  end.

(** [s.replace(old, new)] for a non-empty [old]: the occurrences are
    replaced from left to right, without overlap.  [skip] counts the
    characters of an occurrence still to be passed over. *)
Fixpoint replace_from (skip : nat) (old new s : string) : string :=
  match s with
  | EmptyString => EmptyString
  | String c s' =>
      match skip with
      | S k => replace_from k old new s'
      | O =>
          if startswith old s
          then new +:+ replace_from (String.length old - 1) old new s'
          else String c (replace_from 0 old new s')
      end
  end.

Definition replace (old new s : string) : string := replace_from 0 old new s.

(** [str(n)] for a natural number. *)
Definition str_of_nat (n : nat) : string :=
  NilZero.string_of_uint (Nat.to_uint n).

(** [str(z)] for an integer. *)
Definition str_of_Z (z : Z) : string :=
  NilZero.string_of_int (Z.to_int z).

(** [c * n]. *)
Fixpoint repeat_char (c : ascii) (n : nat) : string :=
  match n with
  | O => EmptyString
  | S n' => String c (repeat_char c n')
  end.

(** The newline character. *)
Definition nl : string := String (ascii_of_nat 10) EmptyString.

End PyText.

(** ** [collections.Counter] *)

Module PyCounter.

(** [counts[x] += 1] on a dictionary kept in insertion order. *)
Fixpoint add (x : string) (counts : list (string * nat))
  : list (string * nat) :=
  match counts with
  | [] => [(x, 1)]
  | (y, n) :: rest =>
      if String.eqb y x then (y, n + 1) :: rest else (y, n) :: add x rest
  end.

(** [Counter(l)]: the elements of [l] with their numbers of
    occurrences, in order of first occurrence. *)
Definition counter (l : list string) : list (string * nat) :=
  fold_left (fun counts x => add x counts) l [].

(** Insertion of an item behind the items that occur at least as often. *)
Fixpoint insert_desc (item : string * nat) (sorted : list (string * nat))
  : list (string * nat) :=
  match sorted with
  | [] => [item]
  | other :: rest =>
      if snd other <? snd item then item :: other :: rest
      else other :: insert_desc item rest
  end.

(** [sorted(items, key=itemgetter(1), reverse=True)]: a stable sort. *)
Definition sort_desc (items : list (string * nat)) : list (string * nat) :=
  fold_left (fun sorted item => insert_desc item sorted) items [].

(** [counts.most_common(n)]: what [heapq.nlargest(n, counts.items(),
    key=itemgetter(1))] returns. *)
Definition most_common (n : nat) (counts : list (string * nat))
  : list (string * nat) :=
  firstn n (sort_desc counts).

End PyCounter.

(** ** The results dictionary, with its dictionaries in insertion order *)

(** [print_analysis_report] iterates over [results['meta_tags']] and
    [results['headings']]: both are kept as the lists of their items. *)
Record ResultsDict : Type := mkResultsDict {
  r_url : string;
  r_headings : list (string * list string);
  r_images : ImagesSummary;
  r_links : LinksInfo;
  r_meta_tags : list (string * option string);
  r_word_count : nat;
  r_paragraph_count : nat;
  r_stylesheet_count : nat;
  r_script_count : nat
}.

Inductive Results : Type :=
| ErrorResult (error : string)
| DataResult (d : ResultsDict).

(** [d[key] = value] on a dictionary kept in insertion order: a key
    already present keeps its place. *)
Fixpoint dict_set {V : Type} (key : string) (value : V)
    (d : list (string * V)) : list (string * V) :=
  match d with
  | [] => [(key, value)]
  | (k, v) :: rest =>
      if String.eqb k key then (k, value) :: rest
      else (k, v) :: dict_set key value rest
  end.

(** The items of the dictionary [extract_headings] returns (either
    file): the keys are inserted in the order [h1], ..., [h6]. *)
Definition heading_items (soup : Soup.soup) : list (string * list string) :=
  List.map
    (fun i =>
       (heading_tag i,
        List.map (Soup.get_text "")
          (List.filter (fun heading => PyStr.nonempty (Soup.get_text "" heading))
             (Soup.find_all (heading_tag i) soup))))
    levels.

(** The loop over [<meta>] elements on the dictionary in insertion order. *)
Definition meta_items_step (meta_info : list (string * option string))
    (meta : Soup.node) : list (string * option string) :=
  let name := Soup.get meta "name" in
  let property_tag := Soup.get meta "property" in
  let content := Soup.get meta "content" in
  if truthy name then dict_set (default "" name) content meta_info
  else if truthy property_tag
  then dict_set (default "" property_tag) content meta_info
  else meta_info.

(** The items of the dictionary [extract_meta_tags] returns (either file). *)
Definition meta_items (soup : Soup.soup) : list (string * option string) :=
  let meta_info := fold_left meta_items_step (Soup.find_all "meta" soup) [] in
  match Soup.find "title" soup with
  | Some title_tag =>
      dict_set "title" (Some (Soup.get_text "" title_tag)) meta_info
  | None => meta_info
  end.

(** The content metrics, as both [analyze_website] compute them. *)
Definition body_word_count (soup : Soup.soup) : nat :=
  match Soup.find "body" soup with
  | Some body_tag => length (PyStr.split_ws (Soup.get_text " " body_tag))
  | None => 0
  end.

Definition body_paragraph_count (soup : Soup.soup) : nat :=
  match Soup.find "body" soup with
  | Some body_tag => length (Soup.find_all "p" (Soup.contents body_tag))
  | None => 0
  end.

(** ** [print_analysis_report]

    The result is the list of the strings passed to [print], one per
    call.  The two files print the same sections; only the width of the
    rules differs. *)

Module Report.
Import PyStr PyText.

(** [f"{s[:n]}{'...' if len(s) > n else ''}"]. *)
Definition shorten (n : nat) (s : string) : string :=
  slice_to n s +:+ (if n <? String.length s then "..." else "").

(** The loop over [results['meta_tags'].items()]. *)
Definition meta_lines (meta_tags : list (string * option string))
  : list string :=
  flat_map
    (fun '(key, value) =>
       if truthy value
       then ["  " +:+ replace "og:" "Open Graph " key +:+ ": "
             +:+ shorten 100 (default "" value)]
       else [])
    meta_tags.

(** The loop over [results['headings'].items()]. *)
Definition heading_lines (headings : list (string * list string))
  : list string :=
  flat_map
    (fun '(tag, texts) =>
       match texts with
       | [] => ["  " +:+ upper tag +:+ ": None found"]
       | _ :: _ =>
           ["  " +:+ upper tag +:+ " (" +:+ str_of_nat (length texts)
            +:+ " found):"]
           ++ List.map (fun text => "    - " +:+ shorten 70 text)
                (firstn 5 texts)
           ++ (if 5 <? length texts
               then ["    ... " +:+ str_of_nat (length texts - 5) +:+ " more"]
               else [])
       end)
    headings.

(** [[img['alt'] for img in image_details if img['alt']]]. *)
Definition alts_of (image_details : list ImageInfo) : list string :=
  List.filter nonempty (List.map alt image_details).

(** The image section. *)
Definition image_lines (images : ImagesSummary) : list string :=
  ["  Total Images: " +:+ str_of_nat (total_images images)]
  ++ (if 0 <? total_images images then
        let alts := alts_of (image_details images) in
        let missing_alts :=
          (Z.of_nat (total_images images) - Z.of_nat (length alts))%Z in
        ["  Images with Alt text: " +:+ str_of_nat (length alts);
         "  Images with Missing Alt text: " +:+ str_of_Z missing_alts]
        ++ (if (0 <? missing_alts)%Z
            then ["  (Consider adding alt text for accessibility and SEO)"]
            else [])
        ++ (match alts with
            | [] => []
            | _ :: _ =>
                ["  Most common Alt texts:"]
                ++ List.map
                     (fun '(alt, count) =>
                        "    - '" +:+ slice_to 50 alt +:+ "...' (x"
                        +:+ str_of_nat count +:+ ")")
                     (PyCounter.most_common 3 (PyCounter.counter alts))
            end)
      else []).

(** [f"    - [{link['text'] or 'No Text'}]({link['href']})"]. *)
Definition link_line (link : LinkData) : string :=
  "    - [" +:+ (if nonempty (text link) then text link else "No Text")
  +:+ "](" +:+ href link +:+ ")".

(** The link section. *)
Definition link_lines (links : LinksInfo) : list string :=
  ["  Total Links: " +:+ str_of_nat (total_links links);
   "  Internal Links: " +:+ str_of_nat (internal_count links);
   "  External Links: " +:+ str_of_nat (external_count links)]
  ++ (if 0 <? internal_count links
      then "  Example Internal Links:"
           :: List.map link_line (firstn 3 (internal_links links))
      else [])
  ++ (if 0 <? external_count links
      then "  Example External Links:"
           :: List.map link_line (firstn 3 (external_links links))
      else []).

(** The content metrics section. *)
Definition metric_lines (d : ResultsDict) : list string :=
  ["  Approx. Word Count: " +:+ str_of_nat (r_word_count d);
   "  Paragraphs Found: " +:+ str_of_nat (r_paragraph_count d);
   "  External Stylesheets: " +:+ str_of_nat (r_stylesheet_count d);
   "  External Scripts: " +:+ str_of_nat (r_script_count d)].

(** The report between the opening and the closing rule. *)
Definition sections (d : ResultsDict) : list string :=
  [nl +:+ "--- SEO/Meta Information ---"]
  ++ meta_lines (r_meta_tags d)
  ++ [nl +:+ "--- Headings Summary ---"]
  ++ heading_lines (r_headings d)
  ++ [nl +:+ "--- Image Summary ---"]
  ++ image_lines (r_images d)
  ++ [nl +:+ "--- Link Summary ---"]
  ++ link_lines (r_links d)
  ++ [nl +:+ "--- Content Metrics ---"]
  ++ metric_lines d.

(** [print_analysis_report(results)] with rules of [width] characters. *)
Definition print_report (width : nat) (results : Results) : list string :=
  match results with
  | ErrorResult error => ["Error: " +:+ error]
  | DataResult d =>
      [nl +:+ repeat_char "=" width;
       "Website Analysis Report for: " +:+ r_url d;
       repeat_char "=" width]
      ++ sections d
      ++ [nl +:+ repeat_char "=" width]
  end.

End Report.

(** ** What a program writes and how it ends *)

(** A call of [print], or the prompt of a call of [input]. *)
Inductive event : Type :=
| Print (s : string)
| Prompt (s : string).

(** An exception that ends the program. *)
Inductive uncaught : Type :=
| EOFError
| Propagated (e : exn).

(** The message printed for an input without scheme. *)
Definition invalid_url_message : string :=
  "Invalid URL. Please include 'http://' or 'https://'.".

(** The last line of an interactive session. *)
Definition goodbye_message : string :=
  PyText.nl +:+ "Thank you for using the Website Content Analyzer. Goodbye!".

(** ** [website_analyzer.py]: report and main block *)

Module WA1Cli.
Import PyStr Soup.

(** What [analyze_website] computes from the parsed page, with the
    dictionaries kept in insertion order. *)
Definition analysis (soup : soup) (url : string) : res ResultsDict :=
  do links <- WA1.extract_links_info soup url;
  do (images_list, total_images) <- WA1.extract_images_info soup url;
  Ok (mkResultsDict url (heading_items soup)
        (mkImagesSummary total_images images_list) links
        (meta_items soup) (body_word_count soup)
        (body_paragraph_count soup)
        (length (find_all_with "link" (has_rel "stylesheet") soup))
        (length (find_all_with "script" (has_attr "src") soup))).

(** [analyze_website(url)]: what it returns. *)
Definition analyze_website (fetch_html : string -> option soup) (url : string)
  : res Results :=
  match fetch_html url with
  | None => Ok (ErrorResult ("Could not fetch or parse " +:+ url))
  | Some soup => do d <- analysis soup url; Ok (DataResult d)
  end.

(** [fetch_html(url)]: what it prints and returns.  [get] stands for
    the request and the parse: the page, or the text of the
    [RequestException]. *)
Definition fetch_html (get : string -> soup + string) (url : string)
  : list string * option soup :=
  match get url with
  | inl page => ([], Some page)
  | inr e => (["Error fetching " +:+ url +:+ ": " +:+ e], None)
  end.

(** [analyze_website(url)]: what it prints, and what it returns or
    raises. *)
Definition analyze_website_io (get : string -> soup + string) (url : string)
  : list string * res Results :=
  let started := PyText.nl +:+ "--- Analyzing: " +:+ url +:+ " ---" in
  let '(printed, page) := fetch_html get url in
  match page with
  | None =>
      (started :: printed, Ok (ErrorResult ("Could not fetch or parse " +:+ url)))
  | Some soup =>
      match analysis soup url with
      | Ok d => (started :: printed ++ ["Analysis complete."], Ok (DataResult d))
      | Raise e => (started :: printed, Raise e)
      end
  end.

Definition print_analysis_report (results : Results) : list string :=
  Report.print_report 50 results.

(** The prompt of the main block. *)
Definition prompt : string :=
  PyText.nl +:+ "Enter the URL of the website to analyze (e.g., https://example.com) or 'quit' to exit: ".

(** The [while True] loop of the main block over the lines still to be
    read.  [analyze] stands for the call of [analyze_website]: what it
    prints, and what it returns or raises. *)
Fixpoint main_loop (analyze : string -> list string * res Results)
    (stdin : list string) : list event * option uncaught :=
  match stdin with
  | [] => ([Prompt prompt], Some EOFError)
  | target_url :: stdin' =>
      if String.eqb (PyText.lower target_url) "quit" then ([Prompt prompt], None)
      else if negb (startswith "http://" target_url
                    || startswith "https://" target_url)
      then
        let '(out, exit) := main_loop analyze stdin' in
        (Prompt prompt :: Print invalid_url_message :: out, exit)
      else
        match analyze target_url with
        | (printed, Ok analysis_results) =>
            let '(out, exit) := main_loop analyze stdin' in
            (Prompt prompt :: List.map Print printed
             ++ List.map Print (print_analysis_report analysis_results) ++ out,
             exit)
        | (printed, Raise e) =>
            (Prompt prompt :: List.map Print printed, Some (Propagated e))
        end
  end.

(** The main block. *)
Definition main (analyze : string -> list string * res Results)
    (stdin : list string) : list event * option uncaught :=
  let '(out, exit) := main_loop analyze stdin in
  ([Print "Welcome to the Website Content Analyzer for Design Insights!";
    Print "This tool helps you analyze website structures for design and SEO hints."]
   ++ out
   ++ match exit with
      | None => [Print goodbye_message]
      | Some _ => []
      end,
   exit).

End WA1Cli.

(** ** [website_analyzer2.py]: report, [analyze_and_report] and [main] *)

Module WA2Cli.
Import PyStr Soup.

(** What [analyze_website] computes from the parsed page, with the
    dictionaries kept in insertion order. *)
Definition analysis (soup : soup) (url : string) : res ResultsDict :=
  do links <- WA2.extract_links_info soup url;
  do (images_list, total_images) <- WA2.extract_images_info soup url;
  Ok (mkResultsDict url (heading_items soup)
        (mkImagesSummary total_images images_list) links
        (meta_items soup) (body_word_count soup)
        (body_paragraph_count soup)
        (length (find_all_with "link" (has_rel "stylesheet") soup))
        (length (find_all_with "script" (has_attr "src") soup))).

(** [analyze_website(url)]: what it returns. *)
Definition analyze_website (fetch_html : string -> option soup) (url : string)
  : res Results :=
  match fetch_html url with
  | None => Ok (ErrorResult ("Could not fetch or parse " +:+ url))
  | Some soup => do d <- analysis soup url; Ok (DataResult d)
  end.

Definition print_analysis_report (results : Results) : list string :=
  Report.print_report 60 results.

(** [analyze_and_report(url)]: what it prints, unless the analysis
    raises (the log messages go to the standard error stream). *)
Definition analyze_and_report (fetch_html : string -> option soup)
    (url : string) : res (list string) :=
  do results <- analyze_website fetch_html url;
  Ok (print_analysis_report results).

(** The prompt of the interactive loop. *)
Definition prompt : string :=
  PyText.nl +:+ "Enter the URL of the website to analyze (or 'quit' to exit): ".

(** The [while True] loop of [main] over the lines still to be read. *)
Fixpoint main_loop (fetch_html : string -> option soup) (stdin : list string)
  : list event * option uncaught :=
  match stdin with
  | [] => ([Prompt prompt], Some EOFError)
  | target_url :: stdin' =>
      if String.eqb (PyText.lower target_url) "quit" then ([Prompt prompt], None)
      else if negb (WA2.valid_url target_url)
      then
        let '(out, exit) := main_loop fetch_html stdin' in
        (Prompt prompt :: Print invalid_url_message :: out, exit)
      else
        match analyze_and_report fetch_html target_url with
        | Ok printed =>
            let '(out, exit) := main_loop fetch_html stdin' in
            (Prompt prompt :: List.map Print printed ++ out, exit)
        | Raise e => ([Prompt prompt], Some (Propagated e))
        end
  end.

(** The text printed when an interactive session starts. *)
Definition welcome : string :=
  "Welcome to the Website Content Analyzer for Design Insights!"
  +:+ PyText.nl
  +:+ "This tool helps you analyze website structures for design and SEO hints.".

(** [main()], given [args.url] and the lines of the standard input. *)
Definition main (fetch_html : string -> option soup) (args_url : option string)
    (stdin : list string) : list event * option uncaught :=
  if truthy args_url then
    let url := default "" args_url in
    if negb (WA2.valid_url url) then ([Print invalid_url_message], None)
    else
      match analyze_and_report fetch_html url with
      | Ok printed => (List.map Print printed, None)
      | Raise e => ([], Some (Propagated e))
      end
  else
    let '(out, exit) := main_loop fetch_html stdin in
    ([Print welcome] ++ out
     ++ match exit with
        | None => [Print goodbye_message]
        | Some _ => []
        end,
     exit).

End WA2Cli.

(** * Vocabulary of the statements *)

Import PyStr Soup.

(** ** Links *)

(** What the loop body computes for one [<a href>] element: the record
    with the resolved, trimmed [href], and whether it is internal. *)
Definition link_class (base_url : string) (a_tag : node)
    (c : LinkData * bool) : Prop :=
  exists parsed_full_href parsed_base,
    Urllib.urljoin base_url (strip (default "" (get a_tag "href")))
      = Ok (href (fst c))
    /\ text (fst c) = get_text "" a_tag
    /\ Urllib.urlparse (href (fst c)) "" = Ok parsed_full_href
    /\ Urllib.urlparse base_url "" = Ok parsed_base
    /\ snd c = String.eqb (Urllib.netloc parsed_full_href)
                 (Urllib.netloc parsed_base).

Definition is_internal (c : LinkData * bool) : bool := snd c.

Definition is_external (c : LinkData * bool) : bool := negb (snd c).

(** The accumulators of the link loop after the classified links [cs]. *)
Definition acc_of (cs : list (LinkData * bool)) : LinkAcc :=
  mkLinkAcc (List.map fst cs)
    (List.map fst (List.filter is_internal cs))
    (List.map fst (List.filter is_external cs))
    (length (List.filter is_internal cs))
    (length (List.filter is_external cs)).

(** ** Headings and meta tags *)

(** The trimmed texts of the heading elements [l], in order, without
    the empty ones. *)
Definition heading_texts (l : list node) : list string :=
  List.filter nonempty (List.map (get_text "") l).

(** The dictionary key a [<meta>] element writes, if any: its [name]
    when that is a non-empty string, else its [property]. *)
Definition meta_key (meta : node) : option string :=
  if truthy (get meta "name") then get meta "name"
  else if truthy (get meta "property") then get meta "property"
  else None.

(** ** URLs whose components are all non-empty *)






(** * Scenario documents *)

(** The attribute dictionary of a tag, from its pairs. *)
Definition attrs_of (l : list (string * string)) : gmap string string :=
  list_to_map l.

(** [<a href="/about">About</a><a href="https://other.com">Other</a>],
    an anchor without [href] and one whose [href] is blank. *)
Definition doc_links : soup :=
  [Tag "a" (attrs_of [("href", "/about")]) [Text "About"];
   Tag "a" (attrs_of [("href", "https://other.com")]) [Text "Other"];
   Tag "a" (attrs_of [("name", "top")]) [Text "Top"];
   Tag "a" (attrs_of [("href", "  ")]) [Text "Home"]].

(** The link summary of [doc_links] on the page [https://example.com]. *)
Definition links_of_doc_links : LinksInfo :=
  mkLinksInfo 3
    [mkLinkData "https://example.com/about" "About";
     mkLinkData "https://example.com" "Home"]
    [mkLinkData "https://other.com" "Other"]
    2 1.



(** [<img src="../logo.png">] *)
Definition doc_logo : soup :=
  [Tag "img" (attrs_of [("src", "../logo.png")]) []].

(** [<img src="a.png" alt="A"><p><img></p>]: the second image has
    neither [src] nor [alt]. *)
Definition doc_images : soup :=
  [Tag "img" (attrs_of [("src", "a.png"); ("alt", "A")]) [];
   Tag "p" ∅ [Tag "img" ∅ []]].



(** A page that cannot be fetched. *)
Definition fetch_fails (u : string) : option soup := None.

(** [<link rel="stylesheet" href="s.css"><script src="a.js"></script>
    <p>lost words</p>], with no [<body>]. *)
Definition doc_no_body : soup :=
  [Tag "link" (attrs_of [("rel", "stylesheet"); ("href", "s.css")]) [];
   Tag "script" (attrs_of [("src", "a.js")]) [];
   Tag "p" ∅ [Text "lost words"]].

(** Every fetch answers with [doc_no_body]. *)
Definition fetch_no_body (u : string) : option soup := Some doc_no_body.

(** The analysis of [doc_no_body] fetched from [https://example.com]. *)
Definition analysis_no_body : AnalysisData :=
  mkAnalysisData "https://example.com" (WA1.extract_headings doc_no_body)
    (Some (mkImagesSummary 0 [])) (mkLinksInfo 0 [] [] 0 0)
    (WA1.extract_meta_tags doc_no_body) 0 0 1 1.

(** * Vocabulary of the further statements *)

(** How a record follows from its [<img>] element. *)
Definition image_record_of (base_url : string) (img : node) (r : ImageInfo)
  : Prop :=
  alt r = get_default img "alt" ""
  /\ width r = get img "width"
  /\ height r = get img "height"
  /\ (is_relative_src (get img "src") = false -> src r = get img "src")
  /\ (is_relative_src (get img "src") = true ->
      exists s j,
        get img "src" = Some s /\ src r = Some j
        /\ (j = base_url +:+ s \/ Urllib.urljoin base_url s = Ok j)).

(** The trimmed [href] of the element resolves against the base URL,
    and the resolved URL parses. *)
Definition href_resolvable (base_url : string) (a_tag : node) : Prop :=
  exists full_href parsed_full_href,
    Urllib.urljoin base_url (strip (default "" (get a_tag "href")))
    = Ok full_href
    /\ Urllib.urlparse full_href "" = Ok parsed_full_href.

(** The keys of [l] in order of first appearance, without those in [seen]. *)
Fixpoint first_seen (seen l : list string) : list string :=
  match l with
  | [] => []
  | k :: l' =>
      if in_list k seen then first_seen seen l'
      else k :: first_seen (k :: seen) l'
  end.

(** The results with their dictionaries as finite maps. *)
Definition forget_order (r : Results) : AnalysisResult :=
  match r with
  | ErrorResult error => Failure error
  | DataResult d =>
      Analysis
        (mkAnalysisData (r_url d) (list_to_map (r_headings d))
           (Some (r_images d)) (r_links d) (list_to_map (r_meta_tags d))
           (r_word_count d) (r_paragraph_count d) (r_stylesheet_count d)
           (r_script_count d))
  end.

(** [counts[x]], 0 for a missing key. *)
Fixpoint count_in (x : string) (counts : list (string * nat)) : nat :=
  match counts with
  | [] => 0
  | (y, n) :: rest => if String.eqb y x then n else count_in x rest
  end.

(** The order of [most_common]: by decreasing count. *)
Definition at_least_as_common (x y : string * nat) : Prop := snd y <= snd x.

(** The hint printed when some image has no alt text. *)
Definition alt_hint : string :=
  "  (Consider adding alt text for accessibility and SEO)".

(** The line makes the loop [break]. *)
Definition is_quit (line : string) : bool :=
  String.eqb (PyText.lower line) "quit".



(** A block of example links under its title, when there are any. *)
Definition example_lines (title : string) (links : list LinkData)
  : list string :=
  match links with
  | [] => []
  | _ :: _ => title :: List.map Report.link_line (firstn 3 links)
  end.

(** * Further scenario documents *)

(** A page with a head and a body:
    [<head><meta property="og:title" content="Hi"><title> T </title></head>
    <body><h1>Hello</h1><img src="a.png" alt="Logo"><img>
    <a href="/x">X</a><p>two words</p></body>] *)
Definition doc_page : soup :=
  [Tag "head" ∅
     [Tag "meta" (attrs_of [("property", "og:title"); ("content", "Hi")]) [];
      Tag "title" ∅ [Text " T "]];
   Tag "body" ∅
     [Tag "h1" ∅ [Text "Hello"];
      Tag "img" (attrs_of [("src", "a.png"); ("alt", "Logo")]) [];
      Tag "img" ∅ [];
      Tag "a" (attrs_of [("href", "/x")]) [Text "X"];
      Tag "p" ∅ [Text "two words"]]].

(** Every fetch answers with [doc_page]. *)
Definition fetch_page (u : string) : option soup := Some doc_page.

(** Only the URLs with a scheme can be fetched. *)
Definition fetch_valid (u : string) : option soup :=
  if WA2.valid_url u then Some doc_page else None.

(** Every request answers with [doc_page]. *)
Definition get_page (u : string) : soup + string := inl doc_page.

(** Only the URLs with a scheme can be requested. *)
Definition get_valid (u : string) : soup + string :=
  if WA2.valid_url u then inl doc_page else inr "No connection adapters".

(** The analysis of [doc_page] fetched from [https://example.com]. *)
Definition results_of_page : ResultsDict :=
  mkResultsDict "https://example.com"
    [("h1", ["Hello"]); ("h2", []); ("h3", []); ("h4", []); ("h5", []);
     ("h6", [])]
    (mkImagesSummary 2
       [mkImageInfo (Some "https://example.com/a.png") "Logo" None None;
        mkImageInfo None "" None None])
    (mkLinksInfo 1 [mkLinkData "https://example.com/x" "X"] [] 1 0)
    [("og:title", Some "Hi"); ("title", Some "T")]
    4 1 0 0.

(** Every fetch answers with [doc_logo]. *)
Definition fetch_logo (u : string) : option soup := Some doc_logo.

(** The analysis of [doc_logo] fetched from [https://example.com/blog/],
    with the image source [src]. *)
Definition results_of_logo (src : string) : ResultsDict :=
  mkResultsDict "https://example.com/blog/"
    [("h1", []); ("h2", []); ("h3", []); ("h4", []); ("h5", []); ("h6", [])]
    (mkImagesSummary 1 [mkImageInfo (Some src) "" None None])
    (mkLinksInfo 0 [] [] 0 0) [] 0 0 0 0.

(** * Properties *)

(** ** Exceptions and loops *)

Ltac bind_inv H :=
  match type of H with
  | res_bind ?m _ = Ok _ =>
      let E := fresh "E" in
      destruct m eqn:E; simpl in H; [| discriminate H]
  end.

Lemma res_map_length {A B : Type} (f : A -> res B) (l : list A) (ys : list B) :
  res_map f l = Ok ys -> length ys = length l.
Proof.
  revert ys. induction l as [| x l IH]; intros ys H; simpl in H.
  - injection H as <-. reflexivity.
  - bind_inv H. bind_inv H. injection H as <-. simpl. f_equal. now apply IH.
Qed.

(** ** Membership in [find_all] *)

Lemma is_tag_inv (name : string) (n : node) :
  is_tag name n = true <-> exists a cs, n = Tag name a cs.
Proof.
  split.
  - destruct n as [s | s | nm a cs]; simpl; try discriminate.
    intros H. apply String.eqb_eq in H. subst. eauto.
  - intros (a & cs & ->). simpl. apply String.eqb_refl.
Qed.

Lemma find_all_In (name : string) (doc : list node) (n : node) :
  In n (find_all name doc) <-> In n (nodes doc) /\ exists a cs, n = Tag name a cs.
Proof.
  unfold find_all. rewrite filter_In, is_tag_inv. reflexivity.
Qed.

Lemma find_all_with_In (name : string) (p : node -> bool) (doc : list node)
    (n : node) :
  In n (find_all_with name p doc)
  <-> In n (nodes doc) /\ (exists a cs, n = Tag name a cs) /\ p n = true.
Proof.
  unfold find_all_with. rewrite filter_In, find_all_In. tauto.
Qed.

Lemma has_attr_true (key : string) (n : node) :
  has_attr key n = true <-> exists v, get n key = Some v.
Proof.
  unfold has_attr. destruct (get n key) as [v |]; split.
  - eauto.
  - reflexivity.
  - discriminate.
  - intros [v H]. discriminate H.
Qed.

(** ** The link loop *)

Lemma classify_acc_of (cs : list (LinkData * bool)) (d : LinkData)
    (pf pb : Urllib.ParseResult) :
  classify (acc_of cs) d pf pb
  = acc_of (cs ++ [(d, String.eqb (Urllib.netloc pf) (Urllib.netloc pb))]).
Proof.
  unfold classify, acc_of; simpl.
  rewrite !List.filter_app, !List.map_app, !List.length_app.
  unfold is_internal, is_external; simpl.
  destruct (String.eqb (Urllib.netloc pf) (Urllib.netloc pb)); simpl;
    rewrite ?app_nil_r, ?Nat.add_0_r; reflexivity.
Qed.

Lemma link_loop_free (base_url : string) (tags : list node) :
  forall cs acc',
    for_loop tags (WA1.link_step base_url) (acc_of cs) = Ok acc' ->
    exists cl, Forall2 (link_class base_url) tags cl /\ acc' = acc_of (cs ++ cl).
Proof.
  induction tags as [| t tags IH]; intros cs acc' H; simpl in H.
  - injection H as <-. exists []. split; [constructor | now rewrite app_nil_r].
  - bind_inv H. unfold WA1.link_step in E.
    bind_inv E. bind_inv E. bind_inv E. injection E as <-.
    rewrite classify_acc_of in H.
    destruct (IH _ _ H) as (cl & HF & ->).
    match type of H with context [cs ++ [?c]] => exists (c :: cl) end. split.
    + constructor; [| exact HF]. red. simpl. do 2 eexists. repeat split; try eassumption; reflexivity.
    + now rewrite <- app_assoc.
Qed.

Lemma link_loop_class (base_url : string) (pb : Urllib.ParseResult)
    (tags : list node) :
  Urllib.urlparse base_url "" = Ok pb ->
  forall cs acc',
    for_loop tags (WA2.link_step base_url pb) (acc_of cs) = Ok acc' ->
    exists cl, Forall2 (link_class base_url) tags cl /\ acc' = acc_of (cs ++ cl).
Proof.
  intros Hpb.
  induction tags as [| t tags IH]; intros cs acc' H; simpl in H.
  - injection H as <-. exists []. split; [constructor | now rewrite app_nil_r].
  - bind_inv H. unfold WA2.link_step in E.
    bind_inv E. bind_inv E. injection E as <-.
    rewrite classify_acc_of in H.
    destruct (IH _ _ H) as (cl & HF & ->).
    match type of H with context [cs ++ [?c]] => exists (c :: cl) end. split.
    + constructor; [| exact HF]. red. simpl. do 2 eexists. repeat split; try eassumption; reflexivity.
    + now rewrite <- app_assoc.
Qed.

(** Both implementations return the summary of the classified links. *)
Lemma extract_links_info_classes (doc : soup) (base_url : string) (r : LinksInfo) :
  WA1.extract_links_info doc base_url = Ok r
  \/ WA2.extract_links_info doc base_url = Ok r ->
  exists cl,
    Forall2 (link_class base_url) (find_all_with "a" (has_attr "href") doc) cl
    /\ r = mkLinksInfo (length (find_all_with "a" (has_attr "href") doc))
             (List.map fst (List.filter is_internal cl))
             (List.map fst (List.filter is_external cl))
             (length (List.filter is_internal cl))
             (length (List.filter is_external cl)).
Proof.
  intros [H | H].
  - unfold WA1.extract_links_info in H. bind_inv H. injection H as <-.
    change link_acc0 with (acc_of []) in E.
    destruct (link_loop_free _ _ _ _ E) as (cl & HF & ->).
    exists cl. split; [exact HF | reflexivity].
  - unfold WA2.extract_links_info in H. bind_inv H. bind_inv H.
    injection H as <-.
    change link_acc0 with (acc_of []) in E0.
    destruct (link_loop_class _ _ _ E _ _ E0) as (cl & HF & ->).
    exists cl. split; [exact HF | reflexivity].
Qed.

Lemma internal_external_length {A : Type} (cl : list (A * bool)) :
  length (List.filter (fun c => snd c) cl)
  + length (List.filter (fun c => negb (snd c)) cl) = length cl.
Proof.
  induction cl as [| [d b] cl IH]; simpl; [reflexivity |].
  destruct b; simpl; lia.
Qed.

Lemma Forall2_In_left {A B : Type} (P : A -> B -> Prop) (l : list A)
    (l' : list B) (x : A) :
  Forall2 P l l' -> In x l -> exists y, In y l' /\ P x y.
Proof.
  induction 1 as [| a b l l' Hab HF IH]; simpl; [tauto |].
  intros [-> | Hin]; [eauto |].
  destruct (IH Hin) as (y & Hy & Hxy). eauto.
Qed.

Lemma Forall2_In_right {A B : Type} (P : A -> B -> Prop) (l : list A)
    (l' : list B) (y : B) :
  Forall2 P l l' -> In y l' -> exists x, In x l /\ P x y.
Proof.
  induction 1 as [| a b l l' Hab HF IH]; simpl; [tauto |].
  intros [-> | Hin]; [eauto |].
  destruct (IH Hin) as (x & Hx & Hxy). eauto.
Qed.

(** ** Blank strings and the empty reference *)

Lemma lstrip_all (p : ascii -> bool) (s : string) :
  all_chars p s = true -> lstrip p s = "".
Proof.
  unfold all_chars.
  induction s as [| c s IH]; simpl; [reflexivity |].
  intros H. apply andb_prop in H as [Hc Hs]. rewrite Hc. auto.
Qed.

Lemma strip_blank (s : string) : all_chars is_space s = true -> strip s = "".
Proof.
  intros H. unfold strip, strip_by. now rewrite lstrip_all.
Qed.

Lemma urljoin_empty_url (base_url : string) : Urllib.urljoin base_url "" = Ok base_url.
Proof. unfold Urllib.urljoin. destruct base_url; reflexivity. Qed.

(** ** Scenario documents *)

Lemma doc_links_free :
  WA1.extract_links_info doc_links "https://example.com" = Ok links_of_doc_links.
Proof. vm_compute. reflexivity. Defined.

Lemma doc_links_class :
  WA2.extract_links_info doc_links "https://example.com" = Ok links_of_doc_links.
Proof. vm_compute. reflexivity. Defined.

(** ** Links *)

(** C4. [extract_links_info] (either file) considers exactly the [<a>]
    elements of the document that carry an [href] attribute; each is
    recorded with its trimmed [href] resolved against the base URL and is
    internal iff the netloc of the resolved URL equals the netloc of the
    base URL, external otherwise; both buckets keep document order, and
    [internal_count + external_count = total_links]. *)
Theorem links_classified_by_netloc (doc : soup) (base_url : string)
    (r : LinksInfo) :
  WA1.extract_links_info doc base_url = Ok r
  \/ WA2.extract_links_info doc base_url = Ok r ->
  let link_tags := find_all_with "a" (has_attr "href") doc in
  (forall n, In n link_tags
             <-> In n (nodes doc)
                 /\ (exists a cs, n = Tag "a" a cs)
                 /\ (exists v, get n "href" = Some v))
  /\ (exists cl,
        Forall2 (link_class base_url) link_tags cl
        /\ internal_links r = List.map fst (List.filter is_internal cl)
        /\ external_links r = List.map fst (List.filter is_external cl))
  /\ total_links r = length link_tags
  /\ internal_count r = length (internal_links r)
  /\ external_count r = length (external_links r)
  /\ internal_count r + external_count r = total_links r.
Proof.
  intros H link_tags.
  destruct (extract_links_info_classes _ _ _ H) as (cl & HF & ->).
  fold link_tags in HF |- *. simpl.
  split; [| split; [| split; [| split; [| split]]]].
  - intros n. unfold link_tags. rewrite find_all_with_In, has_attr_true.
    reflexivity.
  - exists cl. auto.
  - reflexivity.
  - now rewrite List.length_map.
  - now rewrite List.length_map.
  - rewrite (Forall2_length _ _ _ HF). apply internal_external_length.
Qed.

Lemma links_classified_by_netloc_witness :
  total_links links_of_doc_links = 3
  /\ internal_count links_of_doc_links + external_count links_of_doc_links
     = total_links links_of_doc_links.
Proof.
  pose proof (links_classified_by_netloc doc_links "https://example.com"
                links_of_doc_links (or_introl doc_links_free)) as H.
  simpl in H. destruct H as (_ & _ & Ht & _ & _ & Hsum).
  split; [exact Ht | exact Hsum].
Defined.

(** C10. An [<a>] element whose [href] is empty or only whitespace is
    still among the links counted by [total_links]; its record carries
    exactly the base URL and lies in [internal_links], and no external
    record carries the base URL. *)
Theorem blank_href_is_internal (doc : soup) (base_url : string)
    (r : LinksInfo) (a_tag : node) (h : string) :
  WA1.extract_links_info doc base_url = Ok r
  \/ WA2.extract_links_info doc base_url = Ok r ->
  In a_tag (nodes doc) ->
  (exists a cs, a_tag = Tag "a" a cs) ->
  get a_tag "href" = Some h ->
  all_chars is_space h = true ->
  In a_tag (find_all_with "a" (has_attr "href") doc)
  /\ total_links r = length (find_all_with "a" (has_attr "href") doc)
  /\ In (mkLinkData base_url (get_text "" a_tag)) (internal_links r)
  /\ (forall d, In d (external_links r) -> href d <> base_url).
Proof.
  intros H Hin Htag Hh Hblank.
  destruct (extract_links_info_classes _ _ _ H) as (cl & HF & ->). simpl.
  assert (Hmem : In a_tag (find_all_with "a" (has_attr "href") doc)).
  { apply find_all_with_In. rewrite has_attr_true. eauto. }
  split; [exact Hmem |]. split; [reflexivity |]. split.
  - destruct (Forall2_In_left _ _ _ _ HF Hmem) as ([d b] & Hc & Hd).
    destruct Hd as (pf & pb & Hjoin & Htext & Hpf & Hpb & Hb). simpl in *.
    rewrite Hh in Hjoin. simpl in Hjoin.
    rewrite (strip_blank _ Hblank), urljoin_empty_url in Hjoin.
    injection Hjoin as Hhref.
    rewrite <- Hhref, Hpb in Hpf. injection Hpf as <-.
    rewrite String.eqb_refl in Hb. subst b.
    apply in_map_iff. exists (d, true). split.
    + destruct d as [dh dt]. simpl in *. now subst.
    + apply filter_In. split; [exact Hc | reflexivity].
  - intros d Hd Heq.
    apply in_map_iff in Hd as ([d' b] & <- & Hc).
    apply filter_In in Hc as [Hc Hb]. unfold is_external in Hb. simpl in *.
    destruct (Forall2_In_right _ _ _ _ HF Hc) as (t & _ & Ht).
    destruct Ht as (pf & pb & _ & _ & Hpf & Hpb & Hb'). simpl in *.
    rewrite Heq, Hpb in Hpf. injection Hpf as <-.
    rewrite String.eqb_refl in Hb'. subst b. discriminate Hb.
Qed.

Lemma blank_href_is_internal_witness :
  In (mkLinkData "https://example.com" "Home") (internal_links links_of_doc_links).
Proof.
  refine (proj1 (proj2 (proj2
    (blank_href_is_internal doc_links "https://example.com" links_of_doc_links
       (Tag "a" (attrs_of [("href", "  ")]) [Text "Home"]) "  "
       (or_intror doc_links_class) _ _ _ _)))).
  - simpl. tauto.
  - eauto.
  - vm_compute. reflexivity.
  - vm_compute. reflexivity.
Defined.

(** ** Images *)

Lemma doc_images_class :
  WA2.extract_images_info doc_images "https://example.com/blog/"
  = Ok ([mkImageInfo (Some "https://example.com/blog/a.png") "A" None None;
         mkImageInfo None "" None None], 2).
Proof. vm_compute. reflexivity. Defined.

(** C9. The total returned by [extract_images_info] (either file) is the
    number of [<img>] elements of the document, whatever attributes they
    carry, and is the length of the returned list of records. *)
Theorem images_total_counts_every_img (doc : soup) (base_url : string)
    (images_info : list ImageInfo) (total : nat) :
  WA1.extract_images_info doc base_url = Ok (images_info, total)
  \/ WA2.extract_images_info doc base_url = Ok (images_info, total) ->
  total = length (find_all "img" doc)
  /\ total = length images_info
  /\ (forall n, In n (find_all "img" doc)
                <-> In n (nodes doc) /\ exists a cs, n = Tag "img" a cs).
Proof.
  intros H.
  assert (Hlen : total = length (find_all "img" doc)
                 /\ length images_info = length (find_all "img" doc)).
  { destruct H as [H | H];
      [unfold WA1.extract_images_info in H | unfold WA2.extract_images_info in H];
      bind_inv H; injection H as <- <-;
      (split; [reflexivity | eapply res_map_length; eassumption]). }
  destruct Hlen as [Ht Hl]. split; [exact Ht |]. split; [congruence |].
  intros n. apply find_all_In.
Qed.

Lemma images_total_counts_every_img_witness :
  2 = length (find_all "img" doc_images).
Proof.
  exact (proj1 (images_total_counts_every_img doc_images
                  "https://example.com/blog/" _ 2 (or_intror doc_images_class))).
Defined.

(** What the two loop bodies do with a relative [src]. *)
Lemma image_info_class_relative (base_url : string) (img : node) (s : string) :
  get img "src" = Some s ->
  is_relative_src (Some s) = true ->
  WA2.image_info base_url img
  = do joined <- Urllib.urljoin base_url s;
    Ok (mkImageInfo (Some joined) (get_default img "alt" "")
          (get img "width") (get img "height")).
Proof.
  intros Hs Hrel. unfold WA2.image_info. rewrite Hs, Hrel. simpl.
  destruct (Urllib.urljoin base_url s); reflexivity.
Qed.

Lemma image_info_free_relative_slash (base_url : string) (img : node)
    (s : string) :
  get img "src" = Some s ->
  is_relative_src (Some s) = true ->
  endswith "/" base_url = true ->
  WA1.image_info base_url img
  = Ok (mkImageInfo (Some (base_url +:+ s)) (get_default img "alt" "")
          (get img "width") (get img "height")).
Proof.
  intros Hs Hrel Hend. unfold WA1.image_info. rewrite Hs, Hrel, Hend. reflexivity.
Qed.

(** Away from a base URL that ends in [/], the two loop bodies agree. *)
Lemma image_info_same (base_url : string) (img : node) :
  endswith "/" base_url = false ->
  WA1.image_info base_url img = WA2.image_info base_url img.
Proof.
  intros Hend. unfold WA1.image_info, WA2.image_info. rewrite Hend. reflexivity.
Qed.

Lemma res_map_ext {A B : Type} (f g : A -> res B) (l : list A) :
  (forall x, f x = g x) -> res_map f l = res_map g l.
Proof.
  intros Hfg. induction l as [| x l IH]; simpl; [reflexivity |].
  now rewrite Hfg, IH.
Qed.

Lemma extract_images_info_same (doc : soup) (base_url : string) :
  endswith "/" base_url = false ->
  WA1.extract_images_info doc base_url = WA2.extract_images_info doc base_url.
Proof.
  intros Hend. unfold WA1.extract_images_info, WA2.extract_images_info.
  rewrite (res_map_ext _ _ _ (fun img => image_info_same base_url img Hend)).
  reflexivity.
Qed.

(** The class-based file resolves scenario B as RFC 3986 does. *)
Lemma class_resolves_parent_reference :
  WA2.extract_images_info doc_logo "https://example.com/blog/"
  = Ok ([mkImageInfo (Some "https://example.com/logo.png") "" None None], 1).
Proof. vm_compute. reflexivity. Qed.

(** C1. With base URL [https://example.com/blog/] and
    [<img src="../logo.png">] the free function concatenates instead of
    resolving: the record keeps the [..] segment. *)
Theorem free_function_keeps_parent_reference :
  WA1.extract_images_info doc_logo "https://example.com/blog/"
  = Ok ([mkImageInfo (Some "https://example.com/blog/../logo.png") "" None None],
        1).
Proof. vm_compute. reflexivity. Qed.

(** C2. On the same document and base URL the two implementations of
    [extract_images_info] return different image records. *)
Theorem implementations_differ_on_images :
  WA1.extract_images_info doc_logo "https://example.com/blog/"
  <> WA2.extract_images_info doc_logo "https://example.com/blog/".
Proof. vm_compute. discriminate. Qed.

(** ** Headings *)

Lemma heading_texts_alt (l : list node) :
  List.map (get_text "") (List.filter (fun h => nonempty (get_text "" h)) l)
  = heading_texts l.
Proof.
  unfold heading_texts. induction l as [| x l IH]; simpl; [reflexivity |].
  destruct (nonempty (get_text "" x)); simpl; now rewrite IH.
Qed.

Lemma heading_texts_nonempty (l : list node) : ~ In "" (heading_texts l).
Proof.
  unfold heading_texts. intros H. apply filter_In in H as [_ H]. discriminate H.
Qed.

(** The inner loop of the free function appends the texts of one level. *)
Lemma heading_loop (tag : string) (l : list node) :
  forall m : gmap string (list string),
    fold_left
      (fun headings heading =>
         let text := get_text "" heading in
         if nonempty text
         then alter (fun texts => texts ++ [text]) tag headings
         else headings) l m
    = alter (fun texts => texts ++ heading_texts l) tag m.
Proof.
  induction l as [| x l IH]; intros m; simpl.
  - symmetry. apply alter_id. intros texts _. apply app_nil_r.
  - rewrite IH. unfold heading_texts. simpl.
    destruct (nonempty (get_text "" x)); [| reflexivity].
    rewrite alter_alter_eq. apply alter_ext. intros texts _. simpl.
    now rewrite <- app_assoc.
Qed.

Lemma extract_headings_class_unfold (doc : soup) :
  WA2.extract_headings doc
  = <["h1" := heading_texts (find_all "h1" doc)]>
      (<["h2" := heading_texts (find_all "h2" doc)]>
         (<["h3" := heading_texts (find_all "h3" doc)]>
            (<["h4" := heading_texts (find_all "h4" doc)]>
               (<["h5" := heading_texts (find_all "h5" doc)]>
                  (<["h6" := heading_texts (find_all "h6" doc)]> ∅))))).
Proof.
  unfold WA2.extract_headings, levels. simpl seq. cbn [List.map].
  rewrite !heading_texts_alt. reflexivity.
Qed.

(** The two implementations build the same dictionary of headings. *)
Lemma extract_headings_same (doc : soup) :
  WA1.extract_headings doc = WA2.extract_headings doc.
Proof.
  rewrite extract_headings_class_unfold.
  unfold WA1.extract_headings, levels. simpl seq.
  cbn [fold_left List.map]. rewrite !heading_loop.
  change (heading_tag 1) with "h1". change (heading_tag 2) with "h2".
  change (heading_tag 3) with "h3". change (heading_tag 4) with "h4".
  change (heading_tag 5) with "h5". change (heading_tag 6) with "h6".
  cbn [list_to_map foldr uncurry fst snd].
  repeat (rewrite alter_insert_eq || rewrite alter_insert_ne by done).
  reflexivity.
Qed.




(** ** Meta tags *)

Lemma extract_meta_tags_same (doc : soup) :
  WA1.extract_meta_tags doc = WA2.extract_meta_tags doc.
Proof. reflexivity. Qed.

Lemma meta_step_key (meta_info : gmap string (option string)) (meta : node) :
  meta_step meta_info meta
  = match meta_key meta with
    | Some k => <[k := get meta "content"]> meta_info
    | None => meta_info
    end.
Proof.
  unfold meta_step, meta_key.
  destruct (get meta "name") as [n |]; simpl.
  - destruct (nonempty n); [reflexivity |].
    destruct (get meta "property") as [p |]; simpl; [| reflexivity].
    destruct (nonempty p); reflexivity.
  - destruct (get meta "property") as [p |]; simpl; [| reflexivity].
    destruct (nonempty p); reflexivity.
Qed.





(** ** The orchestrator *)

Lemma analyze_website_inv (fetch_html : string -> option soup) (u : string)
    (r : AnalysisResult) :
  WA1.analyze_website fetch_html u = Ok r
  \/ WA2.analyze_website fetch_html u = Ok r ->
  match fetch_html u with
  | None => r = Failure ("Could not fetch or parse " +:+ u)
  | Some doc =>
      exists d,
        r = Analysis d
        /\ url d = u
        /\ word_count d
           = match find "body" doc with
             | Some body => length (split_ws (get_text " " body))
             | None => 0
             end
        /\ paragraph_count d
           = match find "body" doc with
             | Some body => length (find_all "p" (contents body))
             | None => 0
             end
        /\ stylesheet_count d
           = length (find_all_with "link" (has_rel "stylesheet") doc)
        /\ script_count d
           = length (find_all_with "script" (has_attr "src") doc)
  end.
Proof.
  unfold WA1.analyze_website, WA2.analyze_website.
  destruct (fetch_html u) as [doc |].
  - intros [H | H]; bind_inv H; bind_inv H;
      match goal with p : (list ImageInfo * nat)%type |- _ => destruct p end;
      simpl in H; injection H as <-; eexists; (split; [reflexivity |]);
      destruct (find "body" doc); simpl; auto.
  - intros [H | H]; now injection H as <-.
Qed.

(** C5. When the fetch fails, [analyze_website] (either file) returns
    normally, and what it returns is the dictionary whose only key is
    [error] with the message [Could not fetch or parse <url>]; no
    extractor can have raised.  A returned dictionary has either that
    single key or the data keys, never both, and it is the failure
    record only if the fetch failed. *)
Theorem fetch_failure_is_the_only_error (fetch_html : string -> option soup)
    (u : string) :
  (fetch_html u = None ->
   WA1.analyze_website fetch_html u
   = Ok (Failure ("Could not fetch or parse " +:+ u))
   /\ WA2.analyze_website fetch_html u
      = Ok (Failure ("Could not fetch or parse " +:+ u)))
  /\ (forall r,
        WA1.analyze_website fetch_html u = Ok r
        \/ WA2.analyze_website fetch_html u = Ok r ->
        (r = Failure ("Could not fetch or parse " +:+ u)
         /\ fetch_html u = None /\ result_keys r = ["error"])
        \/ ((exists d, r = Analysis d /\ url d = u)
            /\ fetch_html u <> None
            /\ ~ In "error" (result_keys r) /\ In "url" (result_keys r))).
Proof.
  split.
  - intros Hf. unfold WA1.analyze_website, WA2.analyze_website.
    rewrite Hf. split; reflexivity.
  - intros r H. apply analyze_website_inv in H.
    destruct (fetch_html u) as [doc |].
    + right. destruct H as (d & -> & Hu & _). split; [eauto |].
      split; [discriminate |]. simpl. split; [| tauto].
      intros Hin. repeat destruct Hin as [Hin | Hin]; try discriminate Hin.
      exact Hin.
    + left. subst r. auto.
Qed.

Lemma fetch_failure_is_the_only_error_witness :
  WA1.analyze_website fetch_fails "https://example.com/missing"
  = Ok (Failure "Could not fetch or parse https://example.com/missing").
Proof.
  exact (proj1 (proj1 (fetch_failure_is_the_only_error fetch_fails
                         "https://example.com/missing") eq_refl)).
Defined.

(** The failure record is returned even for a URL on which the link
    extractor, had it run, would have raised. *)
Lemma failure_runs_no_extractor :
  WA2.extract_links_info [] "https://[" = Raise ValueError
  /\ WA2.analyze_website fetch_fails "https://["
     = Ok (Failure "Could not fetch or parse https://[").
Proof. split; vm_compute; reflexivity. Qed.


Lemma doc_no_body_class :
  WA2.analyze_website fetch_no_body "https://example.com"
  = Ok (Analysis analysis_no_body).
Proof. vm_compute. reflexivity. Defined.




(** ** Agreement of the two implementations away from the image heuristic *)

Lemma link_step_same (base_url : string) (pb : Urllib.ParseResult)
    (acc : LinkAcc) (a_tag : node) :
  Urllib.urlparse base_url "" = Ok pb ->
  WA1.link_step base_url acc a_tag = WA2.link_step base_url pb acc a_tag.
Proof.
  intros Hpb. unfold WA1.link_step, WA2.link_step.
  destruct (Urllib.urljoin base_url _) as [full_href |]; simpl; [| reflexivity].
  rewrite Hpb. reflexivity.
Qed.

Lemma for_loop_ext {A S : Type} (f g : S -> A -> res S) (l : list A) :
  (forall s x, f s x = g s x) -> forall s, for_loop l f s = for_loop l g s.
Proof.
  intros Hfg. induction l as [| x l IH]; intros s; simpl; [reflexivity |].
  rewrite Hfg. destruct (g s x); simpl; auto.
Qed.

Lemma extract_links_info_same (doc : soup) (base_url : string)
    (pb : Urllib.ParseResult) :
  Urllib.urlparse base_url "" = Ok pb ->
  WA1.extract_links_info doc base_url = WA2.extract_links_info doc base_url.
Proof.
  intros Hpb. unfold WA1.extract_links_info, WA2.extract_links_info.
  rewrite Hpb. simpl.
  rewrite (for_loop_ext _ (WA2.link_step base_url pb));
    [reflexivity | intros; now apply link_step_same].
Qed.

(** With no link in the page, a base URL that does not parse makes only
    the class-based extractor raise: it parses the base before the loop. *)
Lemma links_differ_on_unparsable_base :
  WA1.extract_links_info [] "https://[" = Ok (mkLinksInfo 0 [] [] 0 0)
  /\ WA2.extract_links_info [] "https://[" = Raise ValueError.
Proof. split; vm_compute; reflexivity. Qed.

Lemma analyze_website_same (fetch_html : string -> option soup) (u : string)
    (pb : Urllib.ParseResult) :
  endswith "/" u = false ->
  Urllib.urlparse u "" = Ok pb ->
  WA1.analyze_website fetch_html u = WA2.analyze_website fetch_html u.
Proof.
  intros Hend Hpb. unfold WA1.analyze_website, WA2.analyze_website.
  destruct (fetch_html u) as [doc |]; [| reflexivity].
  rewrite extract_headings_same, (extract_links_info_same _ _ _ Hpb),
    (extract_images_info_same _ _ Hend).
  reflexivity.
Qed.

(** ** Resolution of absolute URLs *)

Import Urllib.

Lemma append_cons (x : ascii) (a b : string) :
  String x a +:+ b = String x (a +:+ b).
Proof. reflexivity. Qed.



Lemma append_empty_r (a : string) : a +:+ "" = a.
Proof.
  induction a as [| x a IH]; [reflexivity |]. now rewrite append_cons, IH.
Qed.





Lemma startswith_inv (p s : string) :
  startswith p s = true -> exists t, s = p +:+ t.
Proof.
  unfold startswith. revert s.
  induction p as [| a p IH]; intros s H.
  - exists s. reflexivity.
  - destruct s as [| b s]; simpl in H; [discriminate |].
    destruct (ascii_dec a b) as [-> |]; [| discriminate].
    destruct (IH s H) as [t ->]. exists t. reflexivity.
Qed.


Lemma startswith_append (p t : string) : startswith p (p +:+ t) = true.
Proof.
  unfold startswith. induction p as [| a p IH].
  - destruct t; reflexivity.
  - rewrite append_cons. simpl. destruct (ascii_dec a a); [exact IH | congruence].
Qed.













Lemma valid_url_inv (url : string) :
  WA2.valid_url url = true ->
  exists sch t, (sch = "http" \/ sch = "https") /\ url = sch +:+ "://" +:+ t.
Proof.
  unfold WA2.valid_url. intros H. apply orb_prop in H as [H | H];
    apply startswith_inv in H as [t ->].
  - exists "http", t. auto.
  - exists "https", t. auto.
Qed.







(** * Further properties of the extractors *)

(** ** When the loops return *)

Lemma res_map_Ok_Forall2 {A B : Type} (f : A -> res B) (l : list A)
    (ys : list B) :
  res_map f l = Ok ys -> Forall2 (fun x y => f x = Ok y) l ys.
Proof.
  revert ys. induction l as [| x l IH]; intros ys H; simpl in H.
  - injection H as <-. constructor.
  - bind_inv H. bind_inv H. injection H as <-. constructor; auto.
Qed.

Lemma res_map_returns {A B : Type} (f : A -> res B) (l : list A) :
  (exists ys, res_map f l = Ok ys) <-> Forall (fun x => exists y, f x = Ok y) l.
Proof.
  induction l as [| x l IH]; simpl.
  - split; [constructor | eauto].
  - split.
    + intros [ys H]. bind_inv H. bind_inv H. constructor; [eauto |].
      apply IH. eauto.
    + intros H. apply Forall_cons_iff in H as [[y Hy] Hl].
      apply IH in Hl as [ys Hys]. rewrite Hy, Hys. simpl. eauto.
Qed.

Lemma for_loop_returns {A S : Type} (body : S -> A -> res S) (P : A -> Prop)
    (l : list A) :
  (forall s x, (exists s', body s x = Ok s') <-> P x) ->
  forall s, (exists s', for_loop l body s = Ok s') <-> Forall P l.
Proof.
  intros Hbody. induction l as [| x l IH]; intros s; simpl.
  - split; [constructor | eauto].
  - split.
    + intros [s' H]. bind_inv H. constructor.
      * apply (Hbody s). eauto.
      * apply (IH a). eauto.
    + intros H. apply Forall_cons_iff in H as [Hx Hl].
      apply (Hbody s) in Hx as [s1 Hs1]. rewrite Hs1. simpl.
      now apply IH.
Qed.

(** ** Image records *)

Lemma image_info_record (base_url : string) (img : node) (r : ImageInfo) :
  WA1.image_info base_url img = Ok r \/ WA2.image_info base_url img = Ok r ->
  image_record_of base_url img r.
Proof.
  unfold WA1.image_info, WA2.image_info, image_record_of.
  destruct (is_relative_src (get img "src")) eqn:Hrel.
  - assert (Hs : exists s, get img "src" = Some s).
    { destruct (get img "src") as [s |]; [eauto | discriminate Hrel]. }
    destruct Hs as [s Hs]. rewrite Hs. simpl.
    intros H.
    assert (Hj : exists j, r = mkImageInfo (Some j) (get_default img "alt" "")
                               (get img "width") (get img "height")
                           /\ (j = base_url +:+ s
                               \/ Urllib.urljoin base_url s = Ok j)).
    { destruct H as [H | H].
      - destruct (endswith "/" base_url).
        + injection H as <-. eauto.
        + destruct (Urllib.urljoin base_url s) as [j |] eqn:Hj;
            [| discriminate H].
          injection H as <-. eauto.
      - destruct (Urllib.urljoin base_url s) as [j |] eqn:Hj;
          [| discriminate H].
        injection H as <-. eauto. }
    destruct Hj as (j & -> & Hj). simpl.
    repeat split; try reflexivity; [discriminate |]. eauto.
  - intros H.
    assert (Hr : r = mkImageInfo (get img "src") (get_default img "alt" "")
                       (get img "width") (get img "height"))
      by (destruct H as [H | H]; now injection H as <-).
    subst r. simpl. repeat split; try reflexivity. discriminate.
Qed.



(** X2. [extract_images_info] of the class-based file returns exactly
    when [urljoin] accepts every [src] that has to be resolved, and
    raises [ValueError] otherwise; the free function never raises for a
    base URL that ends in [/], and otherwise returns in the same cases. *)
Theorem extract_images_info_returns (doc : soup) (base_url : string) :
  let resolvable img :=
    is_relative_src (get img "src") = true ->
    exists j, Urllib.urljoin base_url (default "" (get img "src")) = Ok j in
  ((exists r, WA2.extract_images_info doc base_url = Ok r)
   <-> Forall resolvable (find_all "img" doc))
  /\ (WA2.extract_images_info doc base_url = Raise ValueError
      <-> ~ Forall resolvable (find_all "img" doc))
  /\ (if endswith "/" base_url
      then exists r, WA1.extract_images_info doc base_url = Ok r
      else WA1.extract_images_info doc base_url
           = WA2.extract_images_info doc base_url).
Proof.
  intros resolvable.
  assert (Hstep2 : forall img,
             (exists r, WA2.image_info base_url img = Ok r) <-> resolvable img).
  { intros img. unfold WA2.image_info, resolvable.
    destruct (is_relative_src (get img "src")); simpl.
    - destruct (Urllib.urljoin base_url _) as [j |]; simpl; split; eauto.
      + intros [r H]. discriminate H.
      + intros H. destruct (H eq_refl) as [j Hj]. discriminate Hj.
    - split; [discriminate | eauto]. }
  assert (H2 : (exists r, WA2.extract_images_info doc base_url = Ok r)
               <-> Forall resolvable (find_all "img" doc)).
  { assert (HF : Forall (fun img => exists r, WA2.image_info base_url img = Ok r)
                   (find_all "img" doc)
                 <-> Forall resolvable (find_all "img" doc))
      by (rewrite !Forall_forall; split; intros H x Hx; apply Hstep2; auto).
    rewrite <- HF, <- res_map_returns. unfold WA2.extract_images_info.
    destruct (res_map _ _) as [ys |]; simpl;
      split; intros [r H]; try discriminate H; eauto. }
  split; [exact H2 |]. split.
  - rewrite <- H2. destruct (WA2.extract_images_info doc base_url) as [r | []].
    + split; [discriminate | intros H; destruct H; eauto].
    + split; [intros _ [r H]; discriminate H | reflexivity].
  - destruct (endswith "/" base_url) eqn:Hend;
      [| now apply extract_images_info_same].
    unfold WA1.extract_images_info.
    assert (H1 : exists ys,
               res_map (WA1.image_info base_url) (find_all "img" doc) = Ok ys).
    { apply res_map_returns. apply Forall_forall. intros img _.
      unfold WA1.image_info. rewrite Hend.
      destruct (is_relative_src (get img "src")); simpl; eauto. }
    destruct H1 as [ys ->]. simpl. eauto.
Qed.

(** ** When the link extractors return *)

Lemma link_step_free_returns (base_url : string) (acc : LinkAcc)
    (a_tag : node) :
  (exists acc', WA1.link_step base_url acc a_tag = Ok acc')
  <-> href_resolvable base_url a_tag
      /\ exists pb, Urllib.urlparse base_url "" = Ok pb.
Proof.
  unfold WA1.link_step, href_resolvable. split.
  - intros [acc' H]. bind_inv H. bind_inv H. bind_inv H. eauto 6.
  - intros [(full & pf & Hj & Hpf) [pb Hpb]].
    rewrite Hj. simpl. rewrite Hpb. simpl. rewrite Hpf. simpl. eauto.
Qed.

Lemma link_step_class_returns (base_url : string) (pb : Urllib.ParseResult)
    (acc : LinkAcc) (a_tag : node) :
  (exists acc', WA2.link_step base_url pb acc a_tag = Ok acc')
  <-> href_resolvable base_url a_tag.
Proof.
  unfold WA2.link_step, href_resolvable. split.
  - intros [acc' H]. bind_inv H. bind_inv H. eauto.
  - intros (full & pf & Hj & Hpf). rewrite Hj. simpl. rewrite Hpf. simpl. eauto.
Qed.

Lemma Forall_and_const {A : Type} (P : A -> Prop) (Q : Prop) (l : list A) :
  Forall (fun x => P x /\ Q) l <-> (l = [] \/ Q) /\ Forall P l.
Proof.
  induction l as [| x l IH].
  - split; [auto | constructor].
  - rewrite !Forall_cons_iff, IH. split.
    + intros [[Hx HQ] [_ Hl]]. auto.
    + intros [[Hnil | HQ] [Hx Hl]]; [discriminate Hnil | auto].
Qed.

(** X3. [extract_links_info] of the class-based file returns exactly
    when the base URL parses and every trimmed [href] resolves to a URL
    that parses; otherwise it raises [ValueError].  The free function
    parses the base URL inside the loop: it returns in the same cases,
    and also for a page without [<a href>] whatever the base URL. *)
Theorem extract_links_info_returns (doc : soup) (base_url : string) :
  let link_tags := find_all_with "a" (has_attr "href") doc in
  let base_parses := exists pb, Urllib.urlparse base_url "" = Ok pb in
  ((exists r, WA2.extract_links_info doc base_url = Ok r)
   <-> base_parses /\ Forall (href_resolvable base_url) link_tags)
  /\ ((exists r, WA1.extract_links_info doc base_url = Ok r)
      <-> (link_tags = [] \/ base_parses)
          /\ Forall (href_resolvable base_url) link_tags)
  /\ (WA2.extract_links_info doc base_url = Raise ValueError
      <-> ~ (base_parses /\ Forall (href_resolvable base_url) link_tags)).
Proof.
  intros link_tags base_parses.
  assert (H2 : (exists r, WA2.extract_links_info doc base_url = Ok r)
               <-> base_parses /\ Forall (href_resolvable base_url) link_tags).
  { unfold WA2.extract_links_info. fold link_tags. unfold base_parses.
    destruct (Urllib.urlparse base_url "") as [pb |]; simpl.
    - rewrite <- (for_loop_returns (WA2.link_step base_url pb)
                    (href_resolvable base_url) link_tags
                    (link_step_class_returns base_url pb) link_acc0).
      destruct (for_loop _ _ _) as [acc |]; simpl;
        split; [eauto | eauto | intros [r H]; discriminate H
               | intros [_ [acc H]]; discriminate H].
    - split; [intros [r H]; discriminate H | intros [[pb H] _]; discriminate H]. }
  split; [exact H2 |]. split.
  - unfold WA1.extract_links_info. fold link_tags.
    rewrite <- Forall_and_const.
    rewrite <- (for_loop_returns (WA1.link_step base_url)
                    (fun a => href_resolvable base_url a /\ base_parses)
                    link_tags (link_step_free_returns base_url) link_acc0).
    destruct (for_loop _ _ _) as [acc |]; simpl;
      split; intros [r H]; try discriminate H; eauto.
  - rewrite <- H2. destruct (WA2.extract_links_info doc base_url) as [r | []].
    + split; [discriminate | intros H; destruct H; eauto].
    + split; [intros _ [r H]; discriminate H | reflexivity].
Qed.

(** ** The keys of the meta dictionary *)

Lemma meta_key_nonempty (meta : node) (k : string) :
  meta_key meta = Some k -> k <> "".
Proof.
  unfold meta_key, truthy.
  destruct (get meta "name") as [[| c n] |]; simpl;
    destruct (get meta "property") as [[| c' p] |]; simpl;
    intros H; try discriminate H; injection H as <-; discriminate.
Qed.

Lemma meta_loop_keys (k : string) (l : list node) :
  forall meta_info : gmap string (option string),
    is_Some (fold_left meta_step l meta_info !! k)
    <-> is_Some (meta_info !! k)
        \/ exists meta, In meta l /\ meta_key meta = Some k.
Proof.
  induction l as [| meta l IH]; intros meta_info; simpl.
  - split; [auto | intros [H | (m & [] & _)]; exact H].
  - rewrite IH, meta_step_key. split.
    + intros [H | (m & Hm & Hk)]; [| eauto].
      destruct (meta_key meta) as [k' |] eqn:Hk'; [| auto].
      apply lookup_insert_is_Some in H as [-> | [_ H]]; eauto.
    + intros [H | (m & [<- | Hm] & Hk)]; [| | eauto].
      * left. destruct (meta_key meta) as [k' |]; [| exact H].
        apply lookup_insert_is_Some. destruct (decide (k' = k)); auto.
      * left. rewrite Hk. rewrite lookup_insert_eq. eauto.
Qed.

(** X4. A key is in the dictionary returned by [extract_meta_tags]
    (either file) exactly when some [<meta>] element writes it (its
    non-empty [name], else its non-empty [property]) or it is [title]
    and the page has a [<title>] element; a [<meta>] element with
    neither attribute adds nothing, and no key is the empty string. *)
Theorem meta_tags_keys (doc : soup) (k : string) :
  let written :=
    (exists meta, In meta (find_all "meta" doc) /\ meta_key meta = Some k)
    \/ (k = "title" /\ is_Some (find "title" doc)) in
  (is_Some (WA1.extract_meta_tags doc !! k) <-> written)
  /\ (is_Some (WA2.extract_meta_tags doc !! k) <-> written)
  /\ (written -> k <> "").
Proof.
  intros written.
  assert (H : is_Some (WA1.extract_meta_tags doc !! k) <-> written).
  { unfold WA1.extract_meta_tags, written.
    destruct (find "title" doc) as [title_tag |].
    - rewrite lookup_insert_is_Some, meta_loop_keys, lookup_empty. split.
      + intros [<- | [_ [H | H]]]; [right; eauto | | left; exact H].
        destruct H as [x H]. discriminate H.
      + intros [H | [-> _]]; [| auto].
        destruct (decide ("title" = k)); auto.
    - rewrite meta_loop_keys, lookup_empty. split.
      + intros [[x H] | H]; [discriminate H | auto].
      + intros [H | [_ [x H]]]; [auto | discriminate H]. }
  split; [exact H |]. split; [exact H |].
  intros [(meta & _ & Hk) | [-> _]];
    [now apply meta_key_nonempty in Hk | discriminate].
Qed.

(** ** The order of the meta dictionary *)

Lemma dict_set_to_map {V : Type} (key : string) (value : V)
    (d : list (string * V)) :
  list_to_map (dict_set key value d)
  = <[key := value]> (list_to_map d : gmap string V).
Proof.
  induction d as [| [k v] d IH]; simpl; [reflexivity |].
  destruct (String.eqb k key) eqn:Hk; simpl.
  - apply String.eqb_eq in Hk. subst k. now rewrite insert_insert_eq.
  - apply String.eqb_neq in Hk. rewrite IH. now apply insert_insert_ne.
Qed.

Lemma dict_set_keys {V : Type} (key : string) (value : V)
    (d : list (string * V)) :
  List.map fst (dict_set key value d)
  = if in_list key (List.map fst d) then List.map fst d
    else List.map fst d ++ [key].
Proof.
  unfold in_list.
  induction d as [| [k v] d IH]; simpl; [reflexivity |].
  rewrite (String.eqb_sym key k).
  destruct (String.eqb k key); simpl; [reflexivity |].
  rewrite IH. now destruct (existsb _ _).
Qed.

Lemma in_list_In (x : string) (l : list string) : in_list x l = true <-> In x l.
Proof.
  unfold in_list. rewrite existsb_exists. split.
  - intros (y & Hy & Heq). apply String.eqb_eq in Heq. now subst.
  - intros H. exists x. split; [exact H | apply String.eqb_refl].
Qed.

Lemma first_seen_ext (s1 s2 l : list string) :
  (forall x, In x s1 <-> In x s2) -> first_seen s1 l = first_seen s2 l.
Proof.
  revert s1 s2. induction l as [| k l IH]; intros s1 s2 H; simpl; [reflexivity |].
  assert (E : in_list k s1 = in_list k s2).
  { destruct (in_list k s1) eqn:H1, (in_list k s2) eqn:H2; try reflexivity.
    - apply in_list_In, H, in_list_In in H1. congruence.
    - apply in_list_In, H, in_list_In in H2. congruence. }
  rewrite E. destruct (in_list k s2); [now apply IH |].
  f_equal. apply IH. intros x. simpl. now rewrite H.
Qed.

Lemma first_seen_app (seen l1 l2 : list string) :
  first_seen seen (l1 ++ l2)
  = first_seen seen l1 ++ first_seen (first_seen seen l1 ++ seen) l2.
Proof.
  revert seen. induction l1 as [| k l1 IH]; intros seen; simpl; [reflexivity |].
  destruct (in_list k seen) eqn:Hk; [apply IH |].
  simpl. f_equal. rewrite IH. f_equal. apply first_seen_ext.
  intros x. simpl. rewrite !in_app_iff. simpl. tauto.
Qed.

Lemma meta_items_step_keys (meta_info : list (string * option string))
    (meta : node) :
  List.map fst (meta_items_step meta_info meta)
  = List.map fst meta_info
    ++ first_seen (List.map fst meta_info)
         (match meta_key meta with Some k => [k] | None => [] end).
Proof.
  assert (Hset : forall k v,
             List.map fst (dict_set k v meta_info)
             = List.map fst meta_info
               ++ first_seen (List.map fst meta_info) [k]).
  { intros k v. rewrite dict_set_keys. simpl.
    destruct (in_list k _); [now rewrite app_nil_r | reflexivity]. }
  unfold meta_items_step, meta_key.
  destruct (truthy (get meta "name")) eqn:Hn.
  - destruct (get meta "name") as [n |]; [apply Hset | discriminate Hn].
  - destruct (truthy (get meta "property")) eqn:Hp.
    + destruct (get meta "property") as [p |]; [apply Hset | discriminate Hp].
    + simpl. now rewrite app_nil_r.
Qed.

Lemma meta_items_loop_keys (l : list node) :
  forall meta_info : list (string * option string),
    List.map fst (fold_left meta_items_step l meta_info)
    = List.map fst meta_info
      ++ first_seen (List.map fst meta_info) (omap meta_key l).
Proof.
  induction l as [| meta l IH]; intros meta_info; simpl.
  - now rewrite app_nil_r.
  - rewrite IH, meta_items_step_keys, <- app_assoc. f_equal.
    destruct (meta_key meta) as [k |]; simpl.
    + destruct (in_list k (List.map fst meta_info)) eqn:Hk; simpl.
      * rewrite app_nil_r. reflexivity.
      * f_equal. apply first_seen_ext. intros x.
        rewrite in_app_iff. simpl. tauto.
    + now rewrite app_nil_r.
Qed.

Lemma meta_items_step_to_map (meta_info : list (string * option string))
    (meta : node) :
  list_to_map (meta_items_step meta_info meta)
  = meta_step (list_to_map meta_info) meta.
Proof.
  unfold meta_items_step, meta_step.
  destruct (truthy (get meta "name")); [apply dict_set_to_map |].
  destruct (truthy (get meta "property")); [apply dict_set_to_map | reflexivity].
Qed.

Lemma meta_items_to_map (doc : soup) :
  list_to_map (meta_items doc) = WA1.extract_meta_tags doc.
Proof.
  unfold meta_items, WA1.extract_meta_tags.
  assert (H : forall l (d : list (string * option string)),
             list_to_map (fold_left meta_items_step l d)
             = fold_left meta_step l (list_to_map d : gmap string (option string))).
  { induction l as [| meta l IH]; intros d; simpl; [reflexivity |].
    now rewrite IH, meta_items_step_to_map. }
  destruct (find "title" doc); [rewrite dict_set_to_map |]; now rewrite H.
Qed.

(** X5. The items of the meta dictionary, as the report iterates over
    them, come in the order in which their keys are first written: the
    keys of the [<meta>] elements in document order, then [title] unless
    a [<meta>] element wrote it before; and they hold the values of the
    dictionary. *)
Theorem meta_items_in_first_written_order (doc : soup) :
  List.map fst (meta_items doc)
  = first_seen []
      (omap meta_key (find_all "meta" doc)
       ++ match find "title" doc with Some _ => ["title"] | None => [] end)
  /\ list_to_map (meta_items doc) = WA1.extract_meta_tags doc
  /\ list_to_map (meta_items doc) = WA2.extract_meta_tags doc.
Proof.
  split; [| split; apply meta_items_to_map].
  unfold meta_items. rewrite first_seen_app.
  pose proof (meta_items_loop_keys (find_all "meta" doc) []) as Hloop.
  simpl in Hloop.
  destruct (find "title" doc) as [title_tag |].
  - rewrite dict_set_keys, Hloop, app_nil_r. simpl.
    destruct (in_list "title" _); [now rewrite app_nil_r | reflexivity].
  - now rewrite Hloop, app_nil_r.
Qed.

(** ** The results dictionary *)

Lemma heading_items_to_map (doc : soup) :
  list_to_map (heading_items doc) = WA1.extract_headings doc.
Proof. now rewrite extract_headings_same. Qed.

Lemma forget_order_data (doc : soup) (u : string) (imgs : ImagesSummary)
    (links : LinksInfo) (w p c s : nat) :
  forget_order
    (DataResult (mkResultsDict u (heading_items doc) imgs links
                   (meta_items doc) w p c s))
  = Analysis (mkAnalysisData u (WA1.extract_headings doc) (Some imgs) links
                (WA1.extract_meta_tags doc) w p c s).
Proof.
  unfold forget_order.
  cbn [r_url r_headings r_images r_links r_meta_tags r_word_count
       r_paragraph_count r_stylesheet_count r_script_count].
  now rewrite heading_items_to_map, meta_items_to_map.
Qed.

(** The two embeddings of [analyze_website] agree. *)
Lemma analyze_website_forget_order (fetch_html : string -> option soup)
    (u : string) :
  WA1.analyze_website fetch_html u
  = (do r <- WA1Cli.analyze_website fetch_html u; Ok (forget_order r))
  /\ WA2.analyze_website fetch_html u
     = (do r <- WA2Cli.analyze_website fetch_html u; Ok (forget_order r)).
Proof.
  unfold WA1.analyze_website, WA2.analyze_website, WA1Cli.analyze_website,
    WA2Cli.analyze_website, WA1Cli.analysis, WA2Cli.analysis.
  destruct (fetch_html u) as [doc |]; [| split; reflexivity].
  rewrite <- (extract_headings_same doc).
  change (WA2.extract_meta_tags doc) with (WA1.extract_meta_tags doc).
  split.
  - destruct (WA1.extract_links_info doc u) as [links |];
      [| reflexivity].
    destruct (WA1.extract_images_info doc u) as [[il t] |];
      [| reflexivity].
    unfold res_bind. rewrite forget_order_data.
    unfold body_word_count, body_paragraph_count.
    destruct (find "body" doc); reflexivity.
  - destruct (WA2.extract_links_info doc u) as [links |];
      [| reflexivity].
    destruct (WA2.extract_images_info doc u) as [[il t] |];
      [| reflexivity].
    unfold res_bind. rewrite forget_order_data.
    unfold body_word_count, body_paragraph_count.
    destruct (find "body" doc); reflexivity.
Qed.

Lemma analysis_inv (doc : soup) (u : string) (d : ResultsDict) :
  WA1Cli.analysis doc u = Ok d \/ WA2Cli.analysis doc u = Ok d ->
  exists links images_list,
    (WA1.extract_links_info doc u = Ok links
     \/ WA2.extract_links_info doc u = Ok links)
    /\ (WA1.extract_images_info doc u
        = Ok (images_list, length (find_all "img" doc))
        \/ WA2.extract_images_info doc u
           = Ok (images_list, length (find_all "img" doc)))
    /\ d = mkResultsDict u (heading_items doc)
             (mkImagesSummary (length (find_all "img" doc)) images_list)
             links (meta_items doc) (body_word_count doc)
             (body_paragraph_count doc)
             (length (find_all_with "link" (has_rel "stylesheet") doc))
             (length (find_all_with "script" (has_attr "src") doc)).
Proof.
  unfold WA1Cli.analysis, WA2Cli.analysis. intros [H | H].
  - bind_inv H. bind_inv H. destruct a0 as [il t]. injection H as <-.
    assert (Ht : t = length (find_all "img" doc)).
    { unfold WA1.extract_images_info in E0. bind_inv E0.
      now injection E0 as _ <-. }
    subst t. eauto 10.
  - bind_inv H. bind_inv H. destruct a0 as [il t]. injection H as <-.
    assert (Ht : t = length (find_all "img" doc)).
    { unfold WA2.extract_images_info in E0. bind_inv E0.
      now injection E0 as _ <-. }
    subst t. eauto 10.
Qed.

Lemma analyze_website_dict_inv (fetch_html : string -> option soup)
    (u : string) (r : Results) :
  WA1Cli.analyze_website fetch_html u = Ok r
  \/ WA2Cli.analyze_website fetch_html u = Ok r ->
  match fetch_html u with
  | None => r = ErrorResult ("Could not fetch or parse " +:+ u)
  | Some doc =>
      exists d, r = DataResult d
                /\ (WA1Cli.analysis doc u = Ok d \/ WA2Cli.analysis doc u = Ok d)
  end.
Proof.
  unfold WA1Cli.analyze_website, WA2Cli.analyze_website.
  destruct (fetch_html u) as [doc |].
  - intros [H | H]; bind_inv H; injection H as <-; eauto.
  - intros [H | H]; now injection H as <-.
Qed.

Lemma heading_items_keys (doc : soup) :
  List.map fst (heading_items doc) = ["h1"; "h2"; "h3"; "h4"; "h5"; "h6"].
Proof. reflexivity. Qed.

Lemma heading_items_nonempty (doc : soup) :
  Forall (fun item => ~ In "" (snd item)) (heading_items doc).
Proof.
  unfold heading_items. apply List.Forall_forall. intros [tag texts] H.
  apply in_map_iff in H as (i & Hi & _). injection Hi as _ <-. simpl.
  rewrite heading_texts_alt. apply heading_texts_nonempty.
Qed.

(** X6. The data dictionary that [analyze_website] (either file)
    returns echoes the URL; its image total is the length of its list of
    image records and the number of [<img>] elements; the internal and
    external counts are the lengths of the two link lists and add up to
    the link total; and its headings are the six levels [h1] to [h6] in
    this order, none with an empty text. *)
Theorem analysis_results_are_consistent (fetch_html : string -> option soup)
    (u : string) (d : ResultsDict) :
  WA1Cli.analyze_website fetch_html u = Ok (DataResult d)
  \/ WA2Cli.analyze_website fetch_html u = Ok (DataResult d) ->
  exists doc,
    fetch_html u = Some doc
    /\ r_url d = u
    /\ total_images (r_images d) = length (image_details (r_images d))
    /\ total_images (r_images d) = length (find_all "img" doc)
    /\ internal_count (r_links d) = length (internal_links (r_links d))
    /\ external_count (r_links d) = length (external_links (r_links d))
    /\ internal_count (r_links d) + external_count (r_links d)
       = total_links (r_links d)
    /\ List.map fst (r_headings d) = ["h1"; "h2"; "h3"; "h4"; "h5"; "h6"]
    /\ Forall (fun item => ~ In "" (snd item)) (r_headings d).
Proof.
  intros H. apply analyze_website_dict_inv in H.
  destruct (fetch_html u) as [doc |]; [| discriminate H].
  destruct H as (d' & Hd & H). injection Hd as <-.
  destruct (analysis_inv _ _ _ H) as (links & il & Hl & Hi & ->).
  exists doc. simpl.
  assert (Hlen : length il = length (find_all "img" doc)).
  { destruct Hi as [Hi | Hi];
      [unfold WA1.extract_images_info in Hi
      | unfold WA2.extract_images_info in Hi];
      bind_inv Hi; injection Hi as <-; eapply res_map_length; eassumption. }
  destruct (extract_links_info_classes _ _ _ Hl) as (cl & HF & ->). simpl.
  rewrite !List.length_map, (Forall2_length _ _ _ HF).
  repeat split; auto using heading_items_nonempty.
  apply internal_external_length.
Qed.

(** ** Elements below an element *)

Lemma node_nested_ind (P : node -> Prop) :
  (forall s, P (Text s)) ->
  (forall s, P (Comment s)) ->
  (forall name a cs, Forall P cs -> P (Tag name a cs)) ->
  forall n, P n.
Proof.
  intros HText HComment HTag.
  fix IH 1. intros [s | s | name a cs].
  - apply HText.
  - apply HComment.
  - apply HTag. induction cs as [| c cs IHcs]; constructor.
    + apply IH.
    + exact IHcs.
Qed.

Lemma descendants_contents (n : node) : descendants n = nodes (contents n).
Proof.
  now destruct n.
Qed.

Lemma nodes_sublist (l : list node) :
  Forall (fun n => forall x, In x (descendants n) ->
                             sublist (descendants x) (descendants n)) l ->
  forall x, In x (nodes l) -> sublist (descendants x) (nodes l).
Proof.
  induction 1 as [| c l Hc _ IH]; intros x Hx; simpl in *; [contradiction |].
  destruct Hx as [<- | Hx].
  - apply sublist_cons, sublist_inserts_r. reflexivity.
  - apply sublist_cons. apply in_app_iff in Hx as [Hx | Hx].
    + apply sublist_inserts_r. now apply Hc.
    + apply sublist_inserts_l. now apply IH.
Qed.

Lemma descendants_sublist (n x : node) :
  In x (descendants n) -> sublist (descendants x) (descendants n).
Proof.
  revert x. induction n as [s | s | name a cs IH] using node_nested_ind;
    intros x Hx; try contradiction.
  rewrite (descendants_contents (Tag name a cs)) in Hx |- *.
  now apply nodes_sublist.
Qed.

Lemma below_sublist (doc : list node) (x : node) :
  In x (nodes doc) -> sublist (nodes (contents x)) (nodes doc).
Proof.
  intros Hx. rewrite <- descendants_contents. apply nodes_sublist; [| exact Hx].
  apply List.Forall_forall. intros n _ y. apply descendants_sublist.
Qed.

Lemma filter_sublist_length {A : Type} (p : A -> bool) (l1 l2 : list A) :
  sublist l1 l2 -> length (List.filter p l1) <= length (List.filter p l2).
Proof.
  induction 1 as [| x l1 l2 _ IH | x l1 l2 _ IH]; simpl.
  - lia.
  - destruct (p x); simpl; lia.
  - destruct (p x); simpl; lia.
Qed.

Lemma find_In (name : string) (doc : list node) (n : node) :
  find name doc = Some n -> In n (nodes doc) /\ is_tag name n = true.
Proof.
  unfold find, find_all. intros H.
  assert (Hin : In n (List.filter (is_tag name) (nodes doc))).
  { destruct (List.filter _ _) as [| y l]; [discriminate H |].
    injection H as ->. now left. }
  now apply filter_In in Hin.
Qed.

(** X7. The paragraph count of an analysis (either file) counts the
    [<p>] elements below the first [<body>] element only: it never
    exceeds the number of [<p>] elements of the document, and it is 0
    when the first [<body>] element is empty. *)
Theorem paragraph_count_is_within_the_body
    (fetch_html : string -> option soup) (u : string) (doc : soup)
    (d : AnalysisData) :
  fetch_html u = Some doc ->
  WA1.analyze_website fetch_html u = Ok (Analysis d)
  \/ WA2.analyze_website fetch_html u = Ok (Analysis d) ->
  paragraph_count d <= length (find_all "p" doc)
  /\ (forall body, find "body" doc = Some body ->
                   paragraph_count d = length (find_all "p" (contents body))
                   /\ (contents body = [] -> paragraph_count d = 0)).
Proof.
  intros Hf H. apply analyze_website_inv in H. rewrite Hf in H.
  destruct H as (d' & Hd & _ & _ & Hp & _). injection Hd as <-.
  rewrite Hp. split.
  - destruct (find "body" doc) as [body |] eqn:Hb; [| lia].
    apply find_In in Hb as [Hin _].
    apply filter_sublist_length. now apply below_sublist.
  - intros body ->. split; [reflexivity |]. now intros ->.
Qed.

(** ** The two files side by side *)

(** X8. For a base URL that [urlparse] accepts and that does not end
    in [/], the two files compute the same analysis: [analyze_website]
    returns the same dictionary, or raises, in both. *)
Theorem implementations_agree_without_final_slash
    (fetch_html : string -> option soup) (u : string)
    (pb : Urllib.ParseResult) :
  endswith "/" u = false ->
  Urllib.urlparse u "" = Ok pb ->
  WA1Cli.analyze_website fetch_html u = WA2Cli.analyze_website fetch_html u
  /\ WA1.analyze_website fetch_html u = WA2.analyze_website fetch_html u.
Proof.
  intros Hend Hpb.
  assert (H : WA1Cli.analyze_website fetch_html u
              = WA2Cli.analyze_website fetch_html u).
  { unfold WA1Cli.analyze_website, WA2Cli.analyze_website, WA1Cli.analysis,
      WA2Cli.analysis.
    destruct (fetch_html u) as [doc |]; [| reflexivity].
    now rewrite (extract_links_info_same _ _ _ Hpb),
      (extract_images_info_same _ _ Hend). }
  split; [exact H |].
  destruct (analyze_website_forget_order fetch_html u) as [-> ->].
  now rewrite H.
Qed.

(** ** The report *)

Lemma length_append (s t : string) :
  String.length (s +:+ t) = String.length s + String.length t.
Proof.
  induction s as [| c s IH]; [reflexivity |].
  rewrite append_cons. simpl. now rewrite IH.
Qed.

Lemma slice_to_all (n : nat) (s : string) :
  String.length s <= n -> PyText.slice_to n s = s.
Proof.
  revert n. induction s as [| c s IH]; intros [| n] Hn; simpl in *;
    try reflexivity; try lia.
  rewrite IH; [reflexivity | lia].
Qed.

Lemma slice_to_length (n : nat) (s : string) :
  String.length (PyText.slice_to n s) = Nat.min n (String.length s).
Proof.
  revert n. induction s as [| c s IH]; intros [| n]; simpl; try reflexivity.
  now rewrite IH.
Qed.

Lemma slice_to_prefix (n : nat) (s : string) :
  startswith (PyText.slice_to n s) s = true.
Proof.
  revert n. induction s as [| c s IH]; intros [| n]; simpl; try reflexivity.
  unfold startswith in *. simpl.
  destruct (ascii_dec c c) as [_ | Hc]; [apply IH | now destruct Hc].
Qed.

(** X9. A text shown by the report with a limit of [n] characters
    ([text[:n]] followed by ['...'] when [len(text) > n]) is the text
    itself when it has at most [n] characters; otherwise it is its first
    [n] characters followed by three dots, [n + 3] characters in all. *)
Theorem shorten_keeps_short_texts (n : nat) (s : string) :
  (String.length s <= n -> Report.shorten n s = s)
  /\ (n < String.length s ->
      Report.shorten n s = PyText.slice_to n s +:+ "..."
      /\ String.length (Report.shorten n s) = n + 3)
  /\ startswith (PyText.slice_to n s) s = true
  /\ String.length (PyText.slice_to n s) = Nat.min n (String.length s).
Proof.
  unfold Report.shorten. split; [| split; [| split]].
  - intros Hn. rewrite slice_to_all by exact Hn.
    destruct (Nat.ltb_spec n (String.length s)); [lia |].
    apply append_empty_r.
  - intros Hn. destruct (Nat.ltb_spec n (String.length s)); [| lia].
    split; [reflexivity |].
    rewrite length_append, slice_to_length.
    change (String.length "...") with 3. lia.
  - apply slice_to_prefix.
  - apply slice_to_length.
Qed.










(** ** [Counter] and [most_common] *)

Lemma count_in_add (x y : string) (counts : list (string * nat)) :
  count_in y (PyCounter.add x counts)
  = count_in y counts + (if String.eqb x y then 1 else 0).
Proof.
  induction counts as [| [z n] counts IH]; simpl.
  - reflexivity.
  - destruct (String.eqb_spec z x) as [-> | Hzx]; simpl.
    + destruct (String.eqb_spec x y); lia.
    + destruct (String.eqb_spec z y) as [-> | Hzy]; [| exact IH].
      destruct (String.eqb_spec x y); [congruence | lia].
Qed.

Lemma keys_add (x y : string) (counts : list (string * nat)) :
  In y (List.map fst (PyCounter.add x counts))
  <-> y = x \/ In y (List.map fst counts).
Proof.
  induction counts as [| [z n] counts IH]; simpl.
  - intuition congruence.
  - destruct (String.eqb_spec z x) as [-> | Hzx]; simpl.
    + intuition congruence.
    + rewrite IH. intuition congruence.
Qed.

Lemma NoDup_keys_add (x : string) (counts : list (string * nat)) :
  List.NoDup (List.map fst counts) ->
  List.NoDup (List.map fst (PyCounter.add x counts)).
Proof.
  induction counts as [| [z n] counts IH]; simpl; intros Hnd.
  - constructor; [intros [] | constructor].
  - destruct (String.eqb_spec z x) as [-> | Hzx]; simpl; [exact Hnd |].
    apply List.NoDup_cons_iff in Hnd as [Hz Hnd].
    constructor; [| auto].
    rewrite keys_add. intuition.
Qed.

Lemma positive_add (x : string) (counts : list (string * nat)) :
  Forall (fun item => 0 < snd item) counts ->
  Forall (fun item => 0 < snd item) (PyCounter.add x counts).
Proof.
  induction 1 as [| [z n] counts Hz Hrest IH]; simpl.
  - constructor; [simpl; lia | constructor].
  - destruct (String.eqb z x); constructor; simpl in *; auto; lia.
Qed.

Lemma counter_loop (l : list string) (acc : list (string * nat)) :
  let counts := fold_left (fun counts x => PyCounter.add x counts) l acc in
  (forall y, count_in y counts = count_in y acc + count_occ string_dec l y)
  /\ (forall y, In y (List.map fst counts) <-> In y l \/ In y (List.map fst acc))
  /\ (List.NoDup (List.map fst acc) -> List.NoDup (List.map fst counts))
  /\ (Forall (fun item => 0 < snd item) acc ->
      Forall (fun item => 0 < snd item) counts).
Proof.
  revert acc. induction l as [| x l IH]; intros acc; simpl.
  - repeat split; auto; try tauto.
  - destruct (IH (PyCounter.add x acc)) as (Hc & Hk & Hnd & Hpos).
    repeat split.
    + intros y. rewrite Hc, count_in_add.
      destruct (string_dec x y) as [-> | Hxy].
      * rewrite String.eqb_refl. lia.
      * destruct (String.eqb_spec x y); [contradiction | lia].
    + rewrite Hk, keys_add. intuition.
    + rewrite Hk, keys_add. intuition.
    + intros H. now apply Hnd, NoDup_keys_add.
    + intros H. now apply Hpos, positive_add.
Qed.

Lemma count_in_In (a : string) (c : nat) (counts : list (string * nat)) :
  List.NoDup (List.map fst counts) -> In (a, c) counts -> count_in a counts = c.
Proof.
  induction counts as [| [z n] counts IH]; simpl; intros Hnd Hin;
    [contradiction |].
  apply List.NoDup_cons_iff in Hnd as [Hz Hnd].
  destruct Hin as [Hin | Hin].
  - injection Hin as -> ->. now rewrite String.eqb_refl.
  - destruct (String.eqb_spec z a) as [-> | _]; [| auto].
    exfalso. apply Hz. apply in_map_iff. now exists (a, c).
Qed.

Lemma insert_desc_perm (item : string * nat) (sorted : list (string * nat)) :
  Permutation (PyCounter.insert_desc item sorted) (item :: sorted).
Proof.
  induction sorted as [| other rest IH]; simpl; [reflexivity |].
  destruct (snd other <? snd item); [reflexivity |].
  rewrite IH. apply perm_swap.
Qed.

Lemma insert_desc_sorted (item : string * nat)
    (sorted : list (string * nat)) :
  StronglySorted at_least_as_common sorted ->
  StronglySorted at_least_as_common (PyCounter.insert_desc item sorted).
Proof.
  induction 1 as [| other rest Hs IH Hall]; simpl.
  - constructor; constructor.
  - destruct (Nat.ltb_spec (snd other) (snd item)) as [Hlt | Hge].
    + constructor; [now constructor |].
      constructor; [unfold at_least_as_common; lia |].
      eapply List.Forall_impl; [| exact Hall].
      unfold at_least_as_common. intros r Hr. lia.
    + constructor; [exact IH |].
      rewrite (insert_desc_perm item rest). now constructor.
Qed.

Lemma sort_desc_loop (items acc : list (string * nat)) :
  let sorted :=
    fold_left (fun sorted item => PyCounter.insert_desc item sorted) items acc in
  Permutation sorted (acc ++ items)
  /\ (StronglySorted at_least_as_common acc ->
      StronglySorted at_least_as_common sorted).
Proof.
  revert acc. induction items as [| item items IH]; intros acc; simpl.
  - rewrite app_nil_r. auto.
  - destruct (IH (PyCounter.insert_desc item acc)) as [Hp Hs]. split.
    + rewrite Hp, insert_desc_perm. apply Permutation_middle.
    + intros H. now apply Hs, insert_desc_sorted.
Qed.

Lemma sorted_app {A : Type} (R : A -> A -> Prop) (l1 l2 : list A) :
  StronglySorted R (l1 ++ l2) ->
  StronglySorted R l1 /\ forall a b, In a l1 -> In b l2 -> R a b.
Proof.
  induction l1 as [| x l1 IH]; simpl; intros H.
  - split; [constructor | contradiction].
  - apply StronglySorted_inv in H as [Hs Hall].
    destruct (IH Hs) as [Hs1 Hcross].
    apply Forall_app in Hall as [H1 H2]. split.
    + now constructor.
    + intros a b [<- | Ha] Hb; [| auto].
      rewrite List.Forall_forall in H2. auto.
Qed.

(** X11. The alt texts listed as most common: [Counter(alts)
    .most_common(k)] holds at most [k] items with distinct texts, each
    with the number of its occurrences in [alts] (at least one), by
    non-increasing count; a text of [alts] that is left out occurs no
    more often than any text listed, and the list is then full. *)
Theorem most_common_lists_the_top_counts (k : nat) (l : list string) :
  let top := PyCounter.most_common k (PyCounter.counter l) in
  length top <= k
  /\ List.NoDup (List.map fst top)
  /\ Forall (fun item => snd item = count_occ string_dec l (fst item)
                         /\ 0 < snd item) top
  /\ StronglySorted at_least_as_common top
  /\ (forall a, In a l -> ~ In a (List.map fst top) ->
      length top = k
      /\ Forall (fun item => count_occ string_dec l a <= snd item) top).
Proof.
  cbv zeta. unfold PyCounter.most_common, PyCounter.sort_desc.
  destruct (counter_loop l []) as (Hc & Hk & Hnd & Hpos).
  fold (PyCounter.counter l) in Hc, Hk, Hnd, Hpos.
  destruct (sort_desc_loop (PyCounter.counter l) []) as [Hperm Hsorted].
  simpl in Hperm. specialize (Hsorted (SSorted_nil _)).
  set (sorted := fold_left _ (PyCounter.counter l) []) in *.
  specialize (Hnd (List.NoDup_nil _)). specialize (Hpos (List.Forall_nil _)).
  assert (Hnd' : List.NoDup (List.map fst sorted)).
  { eapply Permutation.Permutation_NoDup; [| exact Hnd].
    apply Permutation_map. now symmetry. }
  assert (Hitem : forall a c, In (a, c) sorted ->
                              c = count_occ string_dec l a /\ 0 < c).
  { intros a c Hin. apply (Permutation_in _ Hperm) in Hin.
    split.
    - rewrite <- (count_in_In a c _ Hnd Hin). now rewrite Hc.
    - rewrite List.Forall_forall in Hpos. exact (Hpos _ Hin). }
  pose proof (firstn_skipn k sorted) as Hsplit.
  rewrite <- Hsplit in Hsorted, Hnd'.
  apply sorted_app in Hsorted as [Hs1 Hcross].
  rewrite map_app in Hnd'.
  split; [apply firstn_le_length | split; [| split; [| split]]].
  - eapply List.NoDup_app_remove_r. exact Hnd'.
  - apply List.Forall_forall. intros [a c] Hin. simpl.
    apply Hitem. rewrite <- Hsplit. apply in_app_iff. now left.
  - exact Hs1.
  - intros a Ha Hnot.
    assert (Hin : In a (List.map fst sorted)).
    { apply (Permutation_in (l := List.map fst (PyCounter.counter l))).
      - apply Permutation_map. now symmetry.
      - apply Hk. now left. }
    apply in_map_iff in Hin as ([a' c] & Heq & Hin). simpl in Heq. subst a'.
    destruct (Hitem a c Hin) as [-> _].
    rewrite <- Hsplit in Hin. apply in_app_iff in Hin as [Hin | Hin].
    { exfalso. apply Hnot. apply in_map_iff. now exists (a, count_occ string_dec l a). }
    split.
    + rewrite length_firstn.
      assert (k < length sorted); [| lia].
      destruct (Nat.lt_ge_cases k (length sorted)) as [Hlt | Hge]; [exact Hlt |].
      rewrite skipn_all2 in Hin by exact Hge. contradiction.
    + apply List.Forall_forall. intros item Hitem'.
      exact (Hcross _ _ Hitem' Hin).
Qed.

(** ** The image section of the report *)

Lemma append_differs (p x s : string) :
  startswith p s = false -> p +:+ x <> s.
Proof. intros H <-. now rewrite startswith_append in H. Qed.

Lemma image_lines_hint (images : ImagesSummary) :
  In alt_hint (Report.image_lines images)
  <-> 0 < total_images images
      /\ length (Report.alts_of (image_details images)) < total_images images.
Proof.
  unfold Report.image_lines. cbv zeta.
  set (alts := Report.alts_of (image_details images)).
  rewrite in_app_iff. cbn [In].
  destruct (Nat.ltb_spec 0 (total_images images)) as [Hpos | Hzero].
  - rewrite !in_app_iff. cbn [In].
    assert (Hcommon : ~ In alt_hint
              match alts with
              | [] => []
              | _ :: _ =>
                  ["  Most common Alt texts:"]
                  ++ List.map
                       (fun '(alt, count) =>
                          "    - '" +:+ PyText.slice_to 50 alt +:+ "...' (x"
                          +:+ PyText.str_of_nat count +:+ ")")
                       (PyCounter.most_common 3 (PyCounter.counter alts))
              end).
    { destruct alts as [| a alts']; [intros [] |].
      cbn [app In]. intros [H | H]; [discriminate H |].
      apply in_map_iff in H as ([alt count] & H & _).
      revert H. now apply append_differs. }
    destruct (Z.ltb_spec 0 (Z.of_nat (total_images images)
                            - Z.of_nat (length alts))) as [Hlt | Hge].
    + cbn [In]. split; [intros _; split; lia | intros _].
      right. right. left. now left.
    + cbn [In]. split; [| lia].
      intros [[H | []] | [[H | [H | []]] | [[] | H]]];
        try contradiction;
        exfalso; revert H; now apply append_differs.
  - cbn [In]. split; [| lia].
    intros [[H | []] | []]. exfalso. revert H. now apply append_differs.
Qed.

Lemma alts_of_records (imgs : list node) (records : list ImageInfo) :
  Forall2 (fun img r => alt r = get_default img "alt" "") imgs records ->
  Report.alts_of records
  = List.map (fun img => get_default img "alt" "")
      (List.filter (fun img => nonempty (get_default img "alt" "")) imgs).
Proof.
  unfold Report.alts_of.
  induction 1 as [| img r imgs records Hr _ IH]; simpl; [reflexivity |].
  rewrite Hr. destruct (nonempty (get_default img "alt" "")); simpl;
    now rewrite IH.
Qed.

Lemma filter_split_length {A : Type} (p : A -> bool) (l : list A) :
  length (List.filter p l) + length (List.filter (fun x => negb (p x)) l)
  = length l.
Proof.
  induction l as [| x l IH]; simpl; [reflexivity |].
  destruct (p x); simpl; lia.
Qed.

Lemma image_records_alt (doc : soup) (base_url : string)
    (images_info : list ImageInfo) (total : nat) :
  WA1.extract_images_info doc base_url = Ok (images_info, total)
  \/ WA2.extract_images_info doc base_url = Ok (images_info, total) ->
  Forall2 (fun img r => alt r = get_default img "alt" "")
    (find_all "img" doc) images_info.
Proof.
  intros H.
  assert (HF : Forall2 (fun img r => WA1.image_info base_url img = Ok r
                                     \/ WA2.image_info base_url img = Ok r)
                 (find_all "img" doc) images_info).
  { destruct H as [H | H];
      [unfold WA1.extract_images_info in H | unfold WA2.extract_images_info in H];
      bind_inv H; injection H as <- _; apply res_map_Ok_Forall2 in E;
      (eapply Forall2_impl; [exact E |]); simpl; auto. }
  eapply Forall2_impl; [exact HF |].
  intros img r Hr. now apply image_info_record in Hr as [Halt _].
Qed.

(** X12. The image section of the report of an analysis (either file):
    the alt texts it counts are the non-empty [alt] attributes of the
    [<img>] elements in document order; the number reported as missing
    is the number of [<img>] elements whose [alt] is absent or empty, so
    it is never negative; and the accessibility hint is printed exactly
    when there is such an element. *)
Theorem image_section_counts_alt_texts
    (fetch_html : string -> option soup) (u : string) (d : ResultsDict) :
  WA1Cli.analyze_website fetch_html u = Ok (DataResult d)
  \/ WA2Cli.analyze_website fetch_html u = Ok (DataResult d) ->
  exists doc,
    fetch_html u = Some doc
    /\ let imgs := find_all "img" doc in
       let alt_of img := get_default img "alt" "" in
       let alts := Report.alts_of (image_details (r_images d)) in
       alts = List.map alt_of
                (List.filter (fun img => nonempty (alt_of img)) imgs)
       /\ (Z.of_nat (total_images (r_images d)) - Z.of_nat (length alts))%Z
          = Z.of_nat
              (length (List.filter (fun img => negb (nonempty (alt_of img)))
                         imgs))
       /\ (In alt_hint (Report.image_lines (r_images d))
           <-> exists img, In img imgs /\ alt_of img = "").
Proof.
  intros H. apply analyze_website_dict_inv in H.
  destruct (fetch_html u) as [doc |]; [| discriminate H].
  destruct H as (d' & Hd & H). injection Hd as <-.
  apply analysis_inv in H as (links & il & _ & Himg & ->).
  apply image_records_alt in Himg.
  exists doc. split; [reflexivity |]. cbv zeta.
  cbn [r_images image_details total_images].
  pose proof (alts_of_records _ _ Himg) as Halts.
  pose proof (filter_split_length
                (fun img => nonempty (get_default img "alt" ""))
                (find_all "img" doc)) as Hsplit.
  split; [exact Halts | split].
  - rewrite Halts, length_map. lia.
  - rewrite image_lines_hint. cbn [image_details total_images].
    rewrite Halts, length_map. split.
    + intros [_ Hlt].
      destruct (List.filter (fun img => negb (nonempty (get_default img "alt" "")))
                  (find_all "img" doc)) as [| img rest] eqn:Hf;
        [simpl in Hsplit; lia |].
      assert (Hin : In img (List.filter
                (fun img => negb (nonempty (get_default img "alt" "")))
                (find_all "img" doc))) by (rewrite Hf; now left).
      apply filter_In in Hin as [Hin Hne]. exists img. split; [exact Hin |].
      destruct (get_default img "alt" ""); [reflexivity | discriminate Hne].
    + intros (img & Hin & Hempty).
      assert (Hin' : In img (List.filter
                (fun img => negb (nonempty (get_default img "alt" "")))
                (find_all "img" doc))).
      { apply filter_In. split; [exact Hin |]. now rewrite Hempty. }
      destruct (List.filter (fun img => negb (nonempty (get_default img "alt" "")))
                  (find_all "img" doc)) as [| x rest]; [contradiction |].
      simpl in Hsplit. split; lia.
Qed.

(** ** [analyze_and_report] and the command line *)


Lemma analyze_and_report_ext (f1 f2 : string -> option soup) (u : string) :
  f1 u = f2 u ->
  WA2Cli.analyze_and_report f1 u = WA2Cli.analyze_and_report f2 u.
Proof.
  unfold WA2Cli.analyze_and_report, WA2Cli.analyze_website. now intros ->.
Qed.

Lemma main_loop_ext (f1 f2 : string -> option soup) (stdin : list string) :
  (forall u, WA2.valid_url u = true -> In u stdin -> f1 u = f2 u) ->
  WA2Cli.main_loop f1 stdin = WA2Cli.main_loop f2 stdin.
Proof.
  induction stdin as [| line stdin IH]; intros H; [reflexivity |].
  cbn [WA2Cli.main_loop].
  rewrite IH by (intros u Hu Hin; apply H; [exact Hu | now right]).
  destruct (String.eqb (PyText.lower line) "quit"); [reflexivity |].
  destruct (WA2.valid_url line) eqn:Hv; [| reflexivity].
  cbn [negb].
  now rewrite (analyze_and_report_ext f1 f2 line) by (apply H; [exact Hv | now left]).
Qed.

(** X14. [main] of the class-based file fetches nothing but valid URLs:
    two fetchers that agree on the URLs starting with [http://] or
    [https://] among the argument and the lines typed give the same
    run. *)
Theorem main_fetches_valid_urls_only (f1 f2 : string -> option soup)
    (args_url : option string) (stdin : list string) :
  (forall u, WA2.valid_url u = true ->
             args_url = Some u \/ In u stdin -> f1 u = f2 u) ->
  WA2Cli.main f1 args_url stdin = WA2Cli.main f2 args_url stdin.
Proof.
  intros H. unfold WA2Cli.main.
  destruct (truthy args_url) eqn:Ht.
  - destruct args_url as [u |]; [| discriminate Ht].
    change (default "" (Some u)) with u.
    destruct (WA2.valid_url u) eqn:Hv; [| reflexivity]. cbn [negb].
    now rewrite (analyze_and_report_ext f1 f2 u) by (apply H; auto).
  - now rewrite (main_loop_ext f1 f2 stdin) by (intros u Hu Hin; apply H; auto).
Qed.

Lemma analyze_website_io_ext (get1 get2 : string -> soup + string)
    (u : string) :
  get1 u = get2 u ->
  WA1Cli.analyze_website_io get1 u = WA1Cli.analyze_website_io get2 u.
Proof.
  unfold WA1Cli.analyze_website_io, WA1Cli.fetch_html. now intros ->.
Qed.

Lemma main_loop_1_ext (a1 a2 : string -> list string * res Results)
    (stdin : list string) :
  (forall u, WA2.valid_url u = true -> In u stdin -> a1 u = a2 u) ->
  WA1Cli.main_loop a1 stdin = WA1Cli.main_loop a2 stdin.
Proof.
  induction stdin as [| line stdin IH]; intros H; [reflexivity |].
  cbn [WA1Cli.main_loop].
  rewrite IH by (intros u Hu Hin; apply H; [exact Hu | now right]).
  destruct (String.eqb (PyText.lower line) "quit"); [reflexivity |].
  destruct (startswith "http://" line || startswith "https://" line) eqn:Hv;
    [| reflexivity].
  cbn [negb]. now rewrite (H line Hv) by now left.
Qed.

(** X15. The main block of [website_analyzer.py] requests nothing but
    the lines typed that start with [http://] or [https://]: two
    networks that agree on them give the same run. *)
Theorem main_block_requests_valid_urls_only
    (get1 get2 : string -> soup + string) (stdin : list string) :
  (forall u, WA2.valid_url u = true -> In u stdin -> get1 u = get2 u) ->
  WA1Cli.main (WA1Cli.analyze_website_io get1) stdin
  = WA1Cli.main (WA1Cli.analyze_website_io get2) stdin.
Proof.
  intros H. unfold WA1Cli.main.
  rewrite (main_loop_1_ext (WA1Cli.analyze_website_io get1)
             (WA1Cli.analyze_website_io get2) stdin); [reflexivity |].
  intros u Hu Hin. apply analyze_website_io_ext. now apply H.
Qed.

(** ** How a session ends *)

Lemma main_loop_quit (fetch_html : string -> option soup)
    (pre : list string) (q : string) (post : list string) :
  is_quit q = true ->
  WA2Cli.main_loop fetch_html (pre ++ q :: post)
  = WA2Cli.main_loop fetch_html (pre ++ [q])
  /\ snd (WA2Cli.main_loop fetch_html (pre ++ q :: post)) <> Some EOFError.
Proof.
  unfold is_quit. intros Hq.
  induction pre as [| line pre [IH1 IH2]]; cbn [app WA2Cli.main_loop].
  - rewrite Hq. split; [reflexivity | discriminate].
  - rewrite IH1.
    destruct (String.eqb (PyText.lower line) "quit");
      [split; [reflexivity | discriminate] |].
    rewrite IH1 in IH2.
    destruct (negb (WA2.valid_url line)).
    + destruct (WA2Cli.main_loop fetch_html (pre ++ [q])) as [out exit].
      split; [reflexivity | exact IH2].
    + destruct (WA2Cli.analyze_and_report fetch_html line) as [printed | e];
        [| split; [reflexivity | discriminate]].
      destruct (WA2Cli.main_loop fetch_html (pre ++ [q])) as [out exit].
      split; [reflexivity | exact IH2].
Qed.

Lemma main_loop_1_quit (analyze : string -> list string * res Results)
    (pre : list string) (q : string) (post : list string) :
  is_quit q = true ->
  WA1Cli.main_loop analyze (pre ++ q :: post)
  = WA1Cli.main_loop analyze (pre ++ [q])
  /\ snd (WA1Cli.main_loop analyze (pre ++ q :: post)) <> Some EOFError.
Proof.
  unfold is_quit. intros Hq.
  induction pre as [| line pre [IH1 IH2]]; cbn [app WA1Cli.main_loop].
  - rewrite Hq. split; [reflexivity | discriminate].
  - rewrite IH1.
    destruct (String.eqb (PyText.lower line) "quit");
      [split; [reflexivity | discriminate] |].
    rewrite IH1 in IH2.
    destruct (negb (startswith "http://" line || startswith "https://" line)).
    + destruct (WA1Cli.main_loop analyze (pre ++ [q])) as [out exit].
      split; [reflexivity | exact IH2].
    + destruct (analyze line) as [printed [results | e]];
        [| split; [reflexivity | discriminate]].
      destruct (WA1Cli.main_loop analyze (pre ++ [q])) as [out exit].
      split; [reflexivity | exact IH2].
Qed.

(** X16. A line whose lower-case form is [quit] ends the interactive
    session of either file: what is typed after it is never read, and
    the run does not end in [EOFError]. *)
Theorem quit_ends_the_session (fetch_html : string -> option soup)
    (analyze : string -> list string * res Results)
    (pre : list string) (q : string) (post : list string) :
  is_quit q = true ->
  WA2Cli.main fetch_html None (pre ++ q :: post)
  = WA2Cli.main fetch_html None (pre ++ [q])
  /\ WA1Cli.main analyze (pre ++ q :: post) = WA1Cli.main analyze (pre ++ [q])
  /\ snd (WA2Cli.main fetch_html None (pre ++ q :: post)) <> Some EOFError
  /\ snd (WA1Cli.main analyze (pre ++ q :: post)) <> Some EOFError.
Proof.
  intros Hq.
  destruct (main_loop_quit fetch_html pre q post Hq) as [H2 E2].
  destruct (main_loop_1_quit analyze pre q post Hq) as [H1 E1].
  unfold WA2Cli.main, WA1Cli.main. cbn [truthy].
  rewrite H2, H1. rewrite H2 in E2. rewrite H1 in E1.
  destruct (WA2Cli.main_loop fetch_html (pre ++ [q])) as [out2 exit2].
  destruct (WA1Cli.main_loop analyze (pre ++ [q])) as [out1 exit1].
  auto.
Qed.







(** ** What [analyze_website] of [website_analyzer.py] prints *)


(** ** One URL on the command line *)

Lemma valid_url_is_not_quit (u : string) :
  WA2.valid_url u = true -> is_quit u = false.
Proof.
  intros H. apply valid_url_inv in H as (sch & t & [-> | ->] & ->);
    reflexivity.
Qed.

(** X19. A valid URL is never read as [quit], and giving it on the
    command line of the class-based file prints what an interactive
    session prints for it between the two prompts; if its analysis
    raises, both runs end with that exception. *)
Theorem one_url_run_matches_a_session
    (fetch_html : string -> option soup) (u : string) (stdin : list string) :
  WA2.valid_url u = true ->
  is_quit u = false
  /\ WA2Cli.main fetch_html None [u; "quit"]
     = match WA2Cli.main fetch_html (Some u) stdin with
       | (out, None) =>
           (Print WA2Cli.welcome :: Prompt WA2Cli.prompt :: out
            ++ [Prompt WA2Cli.prompt; Print goodbye_message], None)
       | (out, Some e) =>
           (Print WA2Cli.welcome :: Prompt WA2Cli.prompt :: out, Some e)
       end.
Proof.
  intros Hv. pose proof (valid_url_is_not_quit u Hv) as Hq.
  split; [exact Hq |].
  assert (Ht : truthy (Some u) = true).
  { apply valid_url_inv in Hv as (sch & t & [-> | ->] & ->); reflexivity. }
  unfold WA2Cli.main. rewrite Ht. cbn [truthy].
  change (default "" (Some u)) with u.
  cbn [WA2Cli.main_loop]. fold (is_quit u). rewrite Hq, Hv. cbn [negb].
  change (String.eqb (PyText.lower "quit") "quit") with true. cbv iota.
  destruct (WA2Cli.analyze_and_report fetch_html u) as [printed | e];
    [| reflexivity].
  cbn [app]. now rewrite <- app_assoc.
Qed.

(** ** The link section and the two reports *)

(** X20. The link section of the report of an analysis (either file)
    gives the numbers of link records, and shows the first three
    internal and the first three external links, each block under its
    title and only when there is such a link. *)
Theorem link_section_shows_three_examples
    (fetch_html : string -> option soup) (u : string) (d : ResultsDict) :
  WA1Cli.analyze_website fetch_html u = Ok (DataResult d)
  \/ WA2Cli.analyze_website fetch_html u = Ok (DataResult d) ->
  let internal := internal_links (r_links d) in
  let external := external_links (r_links d) in
  Report.link_lines (r_links d)
  = ["  Total Links: "
     +:+ PyText.str_of_nat (length internal + length external);
     "  Internal Links: " +:+ PyText.str_of_nat (length internal);
     "  External Links: " +:+ PyText.str_of_nat (length external)]
    ++ example_lines "  Example Internal Links:" internal
    ++ example_lines "  Example External Links:" external.
Proof.
  intros H. apply analyze_website_dict_inv in H.
  destruct (fetch_html u) as [doc |]; [| discriminate H].
  destruct H as (d' & Hd & H). injection Hd as <-.
  apply analysis_inv in H as (links & il & Hlinks & _ & ->).
  cbn [r_links]. cbv zeta.
  destruct (extract_links_info_classes _ _ _ Hlinks) as (cl & HF & ->).
  unfold Report.link_lines.
  cbn [total_links internal_links external_links internal_count
       external_count].
  pose proof (internal_external_length cl) as Hlen.
  pose proof (Forall2_length _ _ _ HF) as Hcl.
  unfold is_internal, is_external in *.
  rewrite !length_map, Hlen, <- Hcl.
  f_equal. f_equal.
  - destruct (List.filter (fun c => snd c) cl); reflexivity.
  - destruct (List.filter (fun c => negb (snd c)) cl); reflexivity.
Qed.

Lemma image_lines_same (images1 images2 : ImagesSummary) :
  total_images images1 = total_images images2 ->
  Report.alts_of (image_details images1)
  = Report.alts_of (image_details images2) ->
  Report.image_lines images1 = Report.image_lines images2.
Proof. unfold Report.image_lines. now intros -> ->. Qed.

(** X21. The two files print the same report, up to the width of the
    rules, for every page and every URL that [urlparse] accepts, also
    where their image records differ: between the rules the report of
    [website_analyzer.py] is that of [website_analyzer2.py]. *)
Theorem reports_agree_between_the_rules
    (fetch_html : string -> option soup) (u : string)
    (pb : Urllib.ParseResult) (d1 d2 : ResultsDict) :
  Urllib.urlparse u "" = Ok pb ->
  WA1Cli.analyze_website fetch_html u = Ok (DataResult d1) ->
  WA2Cli.analyze_website fetch_html u = Ok (DataResult d2) ->
  Report.sections d1 = Report.sections d2
  /\ r_url d1 = r_url d2.
Proof.
  intros Hpb H1 H2.
  pose proof (analyze_website_dict_inv fetch_html u _ (or_introl H1)) as I1.
  pose proof (analyze_website_dict_inv fetch_html u _ (or_intror H2)) as I2.
  destruct (fetch_html u) as [doc |]; [| discriminate I1].
  destruct I1 as (d & Hd & I1). injection Hd as <-.
  destruct I2 as (d & Hd & I2). injection Hd as <-.
  apply analysis_inv in I1 as (links1 & il1 & L1 & G1 & ->).
  apply analysis_inv in I2 as (links2 & il2 & L2 & G2 & ->).
  assert (Hlinks : links1 = links2).
  { rewrite <- !(extract_links_info_same doc u pb Hpb) in L2.
    rewrite (extract_links_info_same doc u pb Hpb) in L1.
    rewrite <- (extract_links_info_same doc u pb Hpb) in L1.
    destruct L1 as [L1 | L1], L2 as [L2 | L2]; congruence. }
  subst links2.
  apply image_records_alt, alts_of_records in G1, G2.
  split; [| reflexivity].
  unfold Report.sections, Report.metric_lines.
  cbn [r_meta_tags r_headings r_images r_links r_word_count r_paragraph_count
       r_stylesheet_count r_script_count].
  rewrite (image_lines_same (mkImagesSummary (length (find_all "img" doc)) il1)
             (mkImagesSummary (length (find_all "img" doc)) il2));
    [reflexivity | reflexivity |].
  cbn [image_details]. congruence.
Qed.

(** ** The properties on the scenario pages *)

Lemma doc_page_class :
  WA2Cli.analyze_website fetch_page "https://example.com"
  = Ok (DataResult results_of_page).
Proof. vm_compute. reflexivity. Defined.

Lemma doc_logo_free_dict :
  WA1Cli.analyze_website fetch_logo "https://example.com/blog/"
  = Ok (DataResult (results_of_logo "https://example.com/blog/../logo.png")).
Proof. vm_compute. reflexivity. Defined.

Lemma doc_logo_class_dict :
  WA2Cli.analyze_website fetch_logo "https://example.com/blog/"
  = Ok (DataResult (results_of_logo "https://example.com/logo.png")).
Proof. vm_compute. reflexivity. Defined.

Lemma analysis_results_are_consistent_witness :
  exists doc,
    fetch_page "https://example.com" = Some doc
    /\ total_images (r_images results_of_page) = length (find_all "img" doc)
    /\ List.map fst (r_headings results_of_page)
       = ["h1"; "h2"; "h3"; "h4"; "h5"; "h6"].
Proof.
  destruct (analysis_results_are_consistent fetch_page "https://example.com"
              results_of_page (or_intror doc_page_class))
    as (doc & Hf & _ & _ & Hi & _ & _ & _ & Hh & _).
  exists doc. auto.
Defined.

Lemma paragraph_count_is_within_the_body_witness :
  paragraph_count analysis_no_body <= length (find_all "p" doc_no_body).
Proof.
  exact (proj1 (paragraph_count_is_within_the_body fetch_no_body
                  "https://example.com" doc_no_body analysis_no_body
                  eq_refl (or_intror doc_no_body_class))).
Defined.

Lemma implementations_agree_without_final_slash_witness :
  WA1Cli.analyze_website fetch_page "https://example.com"
  = WA2Cli.analyze_website fetch_page "https://example.com"
  /\ WA1.analyze_website fetch_page "https://example.com"
     = WA2.analyze_website fetch_page "https://example.com".
Proof.
  eapply (implementations_agree_without_final_slash fetch_page
            "https://example.com"); vm_compute; reflexivity.
Defined.

Lemma image_section_counts_alt_texts_witness :
  exists doc,
    fetch_page "https://example.com" = Some doc
    /\ (In alt_hint (Report.image_lines (r_images results_of_page))
        <-> exists img,
              In img (find_all "img" doc) /\ get_default img "alt" "" = "").
Proof.
  destruct (image_section_counts_alt_texts fetch_page "https://example.com"
              results_of_page (or_intror doc_page_class))
    as (doc & Hf & _ & _ & Hhint).
  exists doc. split; [exact Hf | exact Hhint].
Defined.

Lemma main_fetches_valid_urls_only_witness :
  WA2Cli.main fetch_page None ["example.com"; "https://example.com"; "quit"]
  = WA2Cli.main fetch_valid None ["example.com"; "https://example.com"; "quit"].
Proof.
  apply main_fetches_valid_urls_only.
  intros u Hv _. unfold fetch_valid, fetch_page. now rewrite Hv.
Defined.

Lemma main_block_requests_valid_urls_only_witness :
  WA1Cli.main (WA1Cli.analyze_website_io get_page)
    ["example.com"; "https://example.com"; "quit"]
  = WA1Cli.main (WA1Cli.analyze_website_io get_valid)
      ["example.com"; "https://example.com"; "quit"].
Proof.
  apply main_block_requests_valid_urls_only.
  intros u Hv _. unfold get_valid, get_page. now rewrite Hv.
Defined.

Lemma quit_ends_the_session_witness :
  WA2Cli.main fetch_page None ["example.com"; "QUIT"; "https://example.com"]
  = WA2Cli.main fetch_page None ["example.com"; "QUIT"]
  /\ WA1Cli.main (WA1Cli.analyze_website_io get_page)
       ["example.com"; "QUIT"; "https://example.com"]
     = WA1Cli.main (WA1Cli.analyze_website_io get_page) ["example.com"; "QUIT"].
Proof.
  destruct (quit_ends_the_session fetch_page
              (WA1Cli.analyze_website_io get_page) ["example.com"] "QUIT"
              ["https://example.com"] eq_refl) as (H2 & H1 & _).
  split; [exact H2 | exact H1].
Defined.

Lemma one_url_run_matches_a_session_witness :
  is_quit "https://example.com" = false
  /\ WA2Cli.main fetch_fails None ["https://example.com"; "quit"]
     = match WA2Cli.main fetch_fails (Some "https://example.com") [] with
       | (out, None) =>
           (Print WA2Cli.welcome :: Prompt WA2Cli.prompt :: out
            ++ [Prompt WA2Cli.prompt; Print goodbye_message], None)
       | (out, Some e) =>
           (Print WA2Cli.welcome :: Prompt WA2Cli.prompt :: out, Some e)
       end.
Proof.
  exact (one_url_run_matches_a_session fetch_fails "https://example.com" []
           eq_refl).
Defined.

Lemma link_section_shows_three_examples_witness :
  Report.link_lines (r_links results_of_page)
  = ["  Total Links: " +:+ PyText.str_of_nat (1 + 0);
     "  Internal Links: " +:+ PyText.str_of_nat 1;
     "  External Links: " +:+ PyText.str_of_nat 0]
    ++ example_lines "  Example Internal Links:"
         [mkLinkData "https://example.com/x" "X"]
    ++ example_lines "  Example External Links:" [].
Proof.
  exact (link_section_shows_three_examples fetch_page "https://example.com"
           results_of_page (or_intror doc_page_class)).
Defined.

Lemma reports_agree_between_the_rules_witness :
  Report.sections (results_of_logo "https://example.com/blog/../logo.png")
  = Report.sections (results_of_logo "https://example.com/logo.png").
Proof.
  refine (proj1 (reports_agree_between_the_rules fetch_logo
                   "https://example.com/blog/" _ _ _ _
                   doc_logo_free_dict doc_logo_class_dict)).
  vm_compute. reflexivity.
Defined.
